(** * DocuMind: the client-side document store and the upload form

    A shallow embedding of the logic of
    - [src/frontend/src/routes/+page.svelte] (module [Page]),
    - [src/frontend/src/lib/components/Filters.svelte] (module [Filters]),
    - [src/frontend/src/lib/components/UploadForm.svelte] (module
      [UploadForm]),
    composed as the page composes them (module [App]), and of the path
    gate of the Flask backend (module [Backend]).

    Component state is threaded explicitly: a handler is a function from
    the state before the call to the state after it.  What a handler reads
    from the browser (the clock, [Math.random], the outcome of [fetch]) is
    an argument of the handler. *)

From Stdlib Require Import String Ascii NArith ZArith List Bool Lia.
From Stdlib Require Import DecimalString DecimalN.
From stdpp Require Import base list strings gmap.

Local Open Scope string_scope.

(** stdpp freezes [String.append] under [simpl]; the proofs below compute
    with it. *)
#[local] Arguments String.append !_ _ : simpl nomatch.

(** * The model *)

(** ** JavaScript strings and arrays

    A string is a sequence of code units; the model keeps the 8-bit ones.
    [toLowerCase] and [trim] act as [String.prototype.toLowerCase] and
    [String.prototype.trim] do on ASCII text (case mapping and white space
    beyond ASCII are not modelled: such code units are left as they are). *)

Module JS.

(** [ToBoolean] on a string: only the empty string is falsy. *)
Definition truthy (s : string) : bool := negb (String.eqb s "").

(** [x || d] for an optional string [x]. *)
Definition str_or (x : option string) (d : string) : string :=
  match x with
  | Some s => if truthy s then s else d
  | None => d
  end.

(** [x || d] for an optional array [x] (an array is always truthy). *)
Definition arr_or {A} (x : option (list A)) (d : list A) : list A :=
  match x with
  | Some l => l
  | None => d
  end.

Definition is_upper (c : ascii) : bool :=
  let n := N_of_ascii c in ((65 <=? n) && (n <=? 90))%N.

Definition lower_char (c : ascii) : ascii :=
  if is_upper c then ascii_of_N (N_of_ascii c + 32) else c.

Fixpoint toLowerCase (s : string) : string :=
  match s with
  | EmptyString => EmptyString
  | String c s' => String (lower_char c) (toLowerCase s')
  end.

(** TAB, LF, VT, FF, CR and SPACE. *)
Definition is_white (c : ascii) : bool :=
  let n := N_of_ascii c in (((9 <=? n) && (n <=? 13)) || (n =? 32))%N.

Fixpoint trimStart (s : string) : string :=
  match s with
  | EmptyString => EmptyString
  | String c s' => if is_white c then trimStart s' else s
  end.

Fixpoint trimEnd (s : string) : string :=
  match s with
  | EmptyString => EmptyString
  | String c s' =>
      let t := trimEnd s' in
      if is_white c && negb (truthy t) then EmptyString else String c t
  end.

Definition trim (s : string) : string := trimEnd (trimStart s).

(** [s.startsWith(t)]. *)
Fixpoint startsWith (s t : string) {struct t} : bool :=
  match t, s with
  | EmptyString, _ => true
  | String _ _, EmptyString => false
  | String c t', String d s' => Ascii.eqb c d && startsWith s' t'
  end.

(** [s.includes(t)]: [t] occurs in [s] at some position. *)
Fixpoint includes (s t : string) : bool :=
  startsWith s t ||
  match s with
  | EmptyString => false
  | String _ s' => includes s' t
  end.

(** The text [Array.prototype.join] uses for an element: [undefined]
    gives the empty string. *)
Definition elem_text (x : option string) : string :=
  match x with
  | Some s => s
  | None => ""
  end.

(** [a.join(sep)]. *)
Fixpoint join (sep : string) (a : list (option string)) : string :=
  match a with
  | [] => ""
  | [x] => elem_text x
  | x :: rest => elem_text x ++ sep ++ join sep rest
  end.

(** Template interpolation of a non-negative integer Number. *)
Definition number_text (n : N) : string :=
  NilEmpty.string_of_uint (N.to_uint n).

End JS.

(** ** Data model ([+page.svelte], TYPE DEFINITIONS) *)

(** [AnalyzedData['extracted_data']]: every key is optional.  The values of
    [importi] ([Record<string, any>]) are kept as text. *)
Record ExtractedData := {
  tipo_documento : option string;
  data_documento : option string;
  soggetti_coinvolti : option (list string);
  descrizione_breve : option string;
  importi : option (gmap string string)
}.

(** [AnalyzedData]: what the backend answers. *)
Module Analyzed.
Record t := { filename : string; extracted_data : ExtractedData }.
End Analyzed.

(** [Doc]: the document as the frontend keeps it. *)
Module Doc.
Record t := {
  id : string;
  name : string;
  uploadedAt : string;
  extracted_data : ExtractedData
}.
End Doc.

(** [FilterValues]. *)
Module FilterValues.
Record t := { search : string; type : string }.
End FilterValues.

(** What one call of [addDocument] reads from the browser: [Date.now()]
    (milliseconds), [Math.random()] and [new Date().toISOString()].  The
    random Number is only ever interpolated into the id, so it is carried
    as the text the interpolation gives; the ISO timestamp likewise. *)
Record Browser := {
  Date_now : N;
  Math_random : string;
  Date_toISOString : string
}.

(** ** The page: the document store ([+page.svelte]) *)

Module Page.

Record State := {
  documents : list Doc.t;
  filtered : list Doc.t;
  filters : FilterValues.t;
  loadingError : string;
  isLoading : bool
}.

Definition init : State := {|
  documents := [];
  filtered := [];
  filters := {| FilterValues.search := ""; FilterValues.type := "" |};
  loadingError := "";
  isLoading := false
|}.

(** The array literal of [applyFilters], joined and lowered. *)
Definition searchableText (doc : Doc.t) : string :=
  let data := Doc.extracted_data doc in
  JS.toLowerCase
    (JS.join " "
       ([Some (Doc.name doc); tipo_documento data]
          ++ map Some (JS.arr_or (soggetti_coinvolti data) [])
          ++ [descrizione_breve data])).

(** The callback given to [documents.filter] in [applyFilters]. *)
Definition keep (filters : FilterValues.t) (doc : Doc.t) : bool :=
  let searchableText := searchableText doc in
  let search := FilterValues.search filters in
  let type := FilterValues.type filters in
  if JS.truthy search
     && negb (JS.includes searchableText (JS.toLowerCase search))
  then false
  else if JS.truthy type
          && negb (String.eqb
                     (JS.toLowerCase
                        (JS.str_or (tipo_documento (Doc.extracted_data doc)) ""))
                     (JS.toLowerCase type))
  then false
  else true.

Definition applyFilters (st : State) : State := {|
  documents := documents st;
  filtered := List.filter (keep (filters st)) (documents st);
  filters := filters st;
  loadingError := loadingError st;
  isLoading := isLoading st
|}.

Definition newDoc (b : Browser) (analyzedDoc : Analyzed.t) : Doc.t := {|
  Doc.id := JS.number_text (Date_now b) ++ "-" ++ Math_random b;
  Doc.name := Analyzed.filename analyzedDoc;
  Doc.uploadedAt := Date_toISOString b;
  Doc.extracted_data := Analyzed.extracted_data analyzedDoc
|}.

Definition addDocument (b : Browser) (analyzedDoc : Analyzed.t) (st : State) : State :=
  applyFilters {|
    documents := newDoc b analyzedDoc :: documents st;
    filtered := filtered st;
    filters := filters st;
    loadingError := loadingError st;
    isLoading := isLoading st
  |}.

Definition deleteDocument (id : string) (st : State) : State :=
  applyFilters {|
    documents :=
      List.filter (fun d => negb (String.eqb (Doc.id d) id)) (documents st);
    filtered := filtered st;
    filters := filters st;
    loadingError := loadingError st;
    isLoading := isLoading st
  |}.

Definition onFilter (newFilters : FilterValues.t) (st : State) : State :=
  applyFilters {|
    documents := documents st;
    filtered := filtered st;
    filters := newFilters;
    loadingError := loadingError st;
    isLoading := isLoading st
  |}.

End Page.

(** ** The filter bar ([Filters.svelte])

    [search] and [type] are the two bound inputs.  The debounce timer only
    delays the call of [applyFilters]; it is not part of the model. *)

Module Filters.

Record State := { search : string; type : string }.

(** [applyFilters] trims both inputs and hands them to the [onFilter]
    prop, which acts on the parent's state [P]. *)
Definition applyFilters {P} (onFilter : FilterValues.t -> P -> P)
    (st : State) : P -> P :=
  let filters :=
    {| FilterValues.search := JS.trim (search st);
       FilterValues.type := JS.trim (type st) |} in
  onFilter filters.

Definition resetFilters {P} (onFilter : FilterValues.t -> P -> P)
    (st : State) : State * (P -> P) :=
  let st' := {| search := ""; type := "" |} in
  (st', applyFilters onFilter st').

End Filters.

(** The store operation [setFilter]: the filter bar applies the inputs
    [raw] to the page. *)
Definition setFilter (raw : Filters.State) : Page.State -> Page.State :=
  Filters.applyFilters Page.onFilter raw.

(** ** The upload form ([UploadForm.svelte]) *)

Module UploadForm.

(** A [File] picked in the input: its name and its size in bytes. *)
Record File := { file_name : string; size : N }.

(** The component's variables, and the [value] of its file input. *)
Record State := {
  file : option File;
  error : string;
  isLoading : bool;
  input_value : string
}.

Definition init : State :=
  {| file := None; error := ""; isLoading := false; input_value := "" |}.

(** The change event of the input: [input.files] (possibly [null]) and the
    value the browser gave the input. *)
Record ChangeEvent := { files : option (list File); value : string }.

(** [input.files?.[0] || null]. *)
Definition first_file (e : ChangeEvent) : option File :=
  match files e with
  | Some (f :: _) => Some f
  | _ => None
  end.

Definition size_error (maxFileSize : N) : string :=
  "File troppo grande. Massimo " ++ JS.number_text maxFileSize ++ "MB consentiti.".

(** [maxFileSize] is the prop, in megabytes (a whole number here). *)
Definition onFileChange (maxFileSize : N) (e : ChangeEvent) (st : State) : State :=
  match first_file e with
  | None =>
      {| file := None; error := ""; isLoading := isLoading st;
         input_value := value e |}
  | Some selectedFile =>
      let maxBytes := (maxFileSize * 1024 * 1024)%N in
      if (maxBytes <? size selectedFile)%N then
        {| file := None; error := size_error maxFileSize;
           isLoading := isLoading st; input_value := "" |}
      else
        {| file := Some selectedFile; error := "";
           isLoading := isLoading st; input_value := value e |}
  end.


Definition resetForm (st : State) : State :=
  {| file := None; error := ""; isLoading := isLoading st; input_value := "" |}.

(** *** The request *)

Definition API_ENDPOINT : string := "http://localhost:5001/api/analyze".

(** [fetch(API_ENDPOINT, { method: 'POST', body: formData })]. *)
Record Request := { url : string; method : string; body : File }.

Definition request_of (f : File) : Request :=
  {| url := API_ENDPOINT; method := "POST"; body := f |}.

(** What a [catch] receives: an [Error] with its message, or another value. *)
Inductive Thrown :=
| ErrorObject (message : string)
| OtherValue.

(** A computation of the [try] block: it throws or it gives a value. *)
Definition Try (A : Type) : Type := (Thrown + A)%type.

Definition throw {A} (e : Thrown) : Try A := inl e.

Definition bind {A B} (c : Try A) (k : A -> Try B) : Try B :=
  match c with
  | inl e => inl e
  | inr a => k a
  end.

Notation "x <- c ;; k" := (bind c (fun x => k))
  (at level 100, c at next level, right associativity).

(** [promise.catch(handler)]. *)
Definition catch {A} (c : Try A) (handler : Thrown -> A) : A :=
  match c with
  | inl e => handler e
  | inr a => a
  end.

(** The body of an error answer: [{ error?: string }]. *)
Record ErrorData := { error_message : option string }.

(** The answer of the backend.  [response.ok] tells the two cases apart;
    [json] is the outcome of [response.json()], which rejects on a body
    that does not parse. *)
Inductive Response :=
| NotOk (status : N) (json : Try ErrorData)
| Ok (json : Try Analyzed.t).

Definition ok (response : Response) : bool :=
  match response with
  | Ok _ => true
  | NotOk _ _ => false
  end.

(** The [try] block of [onSubmit] up to the call of [onAdd]. *)
Definition analyze (fetch : Request -> Try Response) (request : Request)
    : Try Analyzed.t :=
  response <- fetch request ;;
  match response with
  | NotOk status json =>
      let errorData :=
        catch json
          (fun _ => {| error_message := Some "Errore di comunicazione con il server" |}) in
      throw (ErrorObject
               (JS.str_or (error_message errorData)
                  ("Errore HTTP " ++ JS.number_text status)))
  | Ok json => json
  end.

(** [onSubmit]: the state of the form and of the parent after the handler
    has run to its end, and the requests it sent.  [onAdd] is the prop,
    acting on the parent's state [P].  ([console.error] is left out.) *)
Definition onSubmit {P} (onAdd : Analyzed.t -> P -> P)
    (fetch : Request -> Try Response) (st : State) (parent : P)
    : State * P * list Request :=
  match file st with
  | None =>
      ({| file := None; error := "Seleziona un file da caricare";
          isLoading := isLoading st; input_value := input_value st |},
       parent, [])
  | Some f =>
      let request := request_of f in
      match analyze fetch request with
      | inr analyzedData =>
          let st' := resetForm st in
          ({| file := file st'; error := error st'; isLoading := false;
              input_value := input_value st' |},
           onAdd analyzedData parent, [request])
      | inl err =>
          ({| file := Some f;
              error := match err with
                       | ErrorObject message => message
                       | OtherValue => "Errore sconosciuto durante l'upload"
                       end;
              isLoading := false; input_value := input_value st |},
           parent, [request])
      end
  end.

End UploadForm.

(** ** The application: page, filter bar and upload form together *)

Module App.

Record State := {
  page : Page.State;
  form : UploadForm.State;
  sent : list UploadForm.Request
}.

Definition init : State :=
  {| page := Page.init; form := UploadForm.init; sent := [] |}.

(** What can happen: a file is picked, the form is submitted (with the
    behaviour of the network and the browser readings of that call), a card
    asks for a deletion, the filter bar applies its inputs. *)
Inductive Event :=
| FileChange (e : UploadForm.ChangeEvent)
| Submit (fetch : UploadForm.Request -> UploadForm.Try UploadForm.Response)
         (b : Browser)
| Delete (id : string)
| Filter (raw : Filters.State).

(** [maxFileSize] is the prop the page gives the form. *)
Definition step (maxFileSize : N) (ev : Event) (a : State) : State :=
  match ev with
  | FileChange e =>
      {| page := page a;
         form := UploadForm.onFileChange maxFileSize e (form a);
         sent := sent a |}
  | Submit fetch b =>
      let '(form', page', requests) :=
        UploadForm.onSubmit (Page.addDocument b) fetch (form a) (page a) in
      {| page := page'; form := form'; sent := (sent a ++ requests)%list |}
  | Delete id =>
      {| page := Page.deleteDocument id (page a); form := form a; sent := sent a |}
  | Filter raw =>
      {| page := setFilter raw (page a); form := form a; sent := sent a |}
  end.

Definition run (maxFileSize : N) (evs : list Event) (a : State) : State :=
  fold_left (fun a ev => step maxFileSize ev a) evs a.

(** The page mounts the form with [maxFileSize={10}]. *)
Definition maxFileSize : N := 10.

End App.

(** ** Runs of the store *)

(** The states the store goes through, from the empty one. *)
Inductive reachable : Page.State -> Prop :=
| reachable_init : reachable Page.init
| reachable_add b analyzedDoc st :
    reachable st -> reachable (Page.addDocument b analyzedDoc st)
| reachable_delete id st :
    reachable st -> reachable (Page.deleteDocument id st)
| reachable_filter raw st :
    reachable st -> reachable (setFilter raw st).

(** A run of insertions, first to last. *)
Definition inserts (ins : list (Browser * Analyzed.t)) (st : Page.State) : Page.State :=
  fold_left (fun st i => Page.addDocument (fst i) (snd i) st) ins st.

(** ** The analysis service: the path gate of [/api/analyze-file] *)

Module Backend.

(** The error kinds of the specification. *)
Inductive Error :=
| InvalidInput
| PayloadTooLarge
| NotFound
| ReadError
| UpstreamUnavailable
| MalformedModelOutput.

(** [s.split(sep)]. *)
Fixpoint split_on (sep : ascii) (s : string) : list string :=
  match s with
  | EmptyString => [""]
  | String c s' =>
      if Ascii.eqb c sep then "" :: split_on sep s'
      else match split_on sep s' with
           | [] => [String c ""]
           | w :: ws => String c w :: ws
           end
  end.

Definition is_absolute (p : string) : bool :=
  match p with
  | String c _ => Ascii.eqb c "/"
  | EmptyString => false
  end.

(** Walking the segments of a path from a directory, kept innermost name
    first: an empty segment and [.] stay, [..] goes to the parent (the top
    directory is its own parent), a name goes down. *)
Fixpoint walk (dir : list string) (segs : list string) : list string :=
  match segs with
  | [] => dir
  | seg :: rest =>
      if String.eqb seg "" || String.eqb seg "." then walk dir rest
      else if String.eqb seg ".." then walk (tail dir) rest
      else walk (seg :: dir) rest
  end.

(** The canonical location of [p], as the names from the top directory
    down; a relative path is taken from [root]. *)
Definition canonical (root : list string) (p : string) : list string :=
  rev (walk (if is_absolute p then [] else rev root) (split_on "/" p)).

(** Modelled from the spec: the input validation of [analyze] for a request
    that names a file by path.  The backend's [app.py] is not among the
    sources; its README only says that the path is checked so that no file
    outside the project directory can be reached.  Following sections 3, 4.1
    and 7 of the specification: an absolute path is rejected; a relative
    path is made canonical against the configured root and must stay inside
    it; otherwise the request fails with [InvalidInput] before any file is
    read.  Inside the root, the file is read ([NotFound] when it is not
    there); the rest of the pipeline is not part of this model.  The second
    component lists the locations read. *)
Definition analyze_file (root : list string)
    (read : list string -> option string) (file_path : string)
    : (Error + string) * list (list string) :=
  if is_absolute file_path then (inl InvalidInput, [])
  else
    let target := canonical root file_path in
    if bool_decide (root `prefix_of` target) then
      match read target with
      | Some text => (inr text, [target])
      | None => (inl NotFound, [target])
      end
    else (inl InvalidInput, []).

(** [p] names a location that is not [root] or below it. *)
Definition resolves_outside (root : list string) (p : string) : Prop :=
  ~ root `prefix_of` canonical root p.

End Backend.

(** ** The list of cards ([DocumentList.svelte]) *)

Module DocumentList.

(** The props.  [limit] is a whole number here (0 or less: no limit). *)
Record Props := {
  documents : list Doc.t;
  isLoading : bool;
  error : string;
  readonly : bool;
  limit : Z
}.

(** [limit > 0 ? documents.slice(0, limit) : documents]. *)
Definition displayedDocuments (p : Props) : list Doc.t :=
  if (0 <? limit p)%Z then firstn (Z.to_nat (limit p)) (documents p)
  else documents p.

Definition hiddenCount (p : Props) : Z :=
  if (0 <? limit p)%Z && (limit p <? Z.of_nat (length (documents p)))%Z
  then (Z.of_nat (length (documents p)) - limit p)%Z
  else 0%Z.




(** [handleDelete] hands the id to the [onDelete] prop. *)
Definition handleDelete {P} (onDelete : string -> P -> P) (id : string) : P -> P :=
  onDelete id.

End DocumentList.

(** The list as the page mounts it: [documents={filtered}],
    [isLoading={isLoading}], [error={loadingError}], the other props at
    their defaults. *)
Definition mounted_list (st : Page.State) : DocumentList.Props :=
  {| DocumentList.documents := Page.filtered st;
     DocumentList.isLoading := Page.isLoading st;
     DocumentList.error := Page.loadingError st;
     DocumentList.readonly := false;
     DocumentList.limit := 0 |}.

(** ** A card ([DocumentCard.svelte]) *)

Module DocumentCard.

Record State := { isProcessing : bool; error : string }.

(** [remove]: [confirm] is the answer to the confirmation dialog and
    [onDelete] the prop, acting on the parent's state [P].  The handlers
    modelled here do not throw, so the [catch] branch is not taken. *)
Definition remove {P} (confirm : bool) (onDelete : string -> P -> P)
    (doc : Doc.t) (st : State) (parent : P) : State * P :=
  if confirm then
    ({| isProcessing := false; error := error st |}, onDelete (Doc.id doc) parent)
  else (st, parent).

(** [formattedDate]: the text [toLocaleDateString] gives for the date, or
    [null]; the locale formatting itself is an argument. *)
Definition formattedDate (toLocaleDateString : string -> string) (doc : Doc.t)
    : option string :=
  match data_documento (Doc.extracted_data doc) with
  | Some date => if JS.truthy date then Some (toLocaleDateString date) else None
  | None => None
  end.

(** [Boolean(x)] for an optional string. *)
Definition truthy_opt (x : option string) : bool :=
  match x with
  | Some s => JS.truthy s
  | None => false
  end.

(** The separator of the metadata line: a bullet between two spaces (the
    bullet as its UTF-8 text). *)
Definition bullet : string := " • ".

Definition metadataInfo (toLocaleDateString : string -> string) (doc : Doc.t)
    : string :=
  let data := Doc.extracted_data doc in
  JS.join bullet
    (List.filter truthy_opt
       [tipo_documento data;
        Some (JS.join ", " (map Some (JS.arr_or (soggetti_coinvolti data) [])));
        formattedDate toLocaleDateString doc]).

(** The icon of the card: the [{#if}] chain on
    [tipo_documento?.toLowerCase()]. *)
Inductive Icon := Receipt | Signature | Sheet.

Definition icon (doc : Doc.t) : Icon :=
  match tipo_documento (Doc.extracted_data doc) with
  | Some ty =>
      if String.eqb (JS.toLowerCase ty) "fattura" then Receipt
      else if String.eqb (JS.toLowerCase ty) "contratto" then Signature
      else Sheet
  | None => Sheet
  end.

End DocumentCard.

(** ** The filter bar with its debounce timer ([Filters.svelte])

    Time is not modelled, the order of events is: a timer set by
    [setTimeout] is live until it fires or is cleared.  Timer ids are
    positive numbers, as in the browser, so that a stored id is truthy. *)

Module FilterBar.

(** The timers of the component: the next id and the live ones. *)
Record Timers := { next : positive; live : gset positive }.

Definition setTimeout (t : Timers) : positive * Timers :=
  (next t, {| next := Pos.succ (next t); live := {[ next t ]} ∪ live t |}).

Definition clearTimeout (id : positive) (t : Timers) : Timers :=
  {| next := next t; live := live t ∖ {[ id ]} |}.

Record State := {
  inputs : Filters.State;
  debounceTimer : option positive;
  timers : Timers
}.

Definition init : State :=
  {| inputs := {| Filters.search := ""; Filters.type := "" |};
     debounceTimer := None;
     timers := {| next := 1; live := ∅ |} |}.

(** [search.trim() !== '' || type.trim() !== '']. *)
Definition hasActiveFilters (st : Filters.State) : bool :=
  negb (String.eqb (JS.trim (Filters.search st)) "")
  || negb (String.eqb (JS.trim (Filters.type st)) "").

Definition activeFiltersCount (st : Filters.State) : nat :=
  length (List.filter (fun b : bool => b)
            [negb (String.eqb (JS.trim (Filters.search st)) "");
             negb (String.eqb (JS.trim (Filters.type st)) "")]).

(** [handleSearchInput]: the pending timer, if any, is cleared and a new
    one is set. *)
Definition handleSearchInput (st : State) : State :=
  let timers1 :=
    match debounceTimer st with
    | Some id => clearTimeout id (timers st)
    | None => timers st
    end in
  let '(id, timers2) := setTimeout timers1 in
  {| inputs := inputs st; debounceTimer := Some id; timers := timers2 |}.

(** [handleTypeChange]: the filters are applied at once. *)
Definition handleTypeChange {P} (onFilter : FilterValues.t -> P -> P)
    (st : State) : P -> P :=
  Filters.applyFilters onFilter (inputs st).

(** [resetFilters]. *)
Definition resetFilters {P} (onFilter : FilterValues.t -> P -> P)
    (st : State) : State * (P -> P) :=
  let '(debounceTimer1, timers1) :=
    match debounceTimer st with
    | Some id => (None, clearTimeout id (timers st))
    | None => (debounceTimer st, timers st)
    end in
  let '(inputs1, apply) := Filters.resetFilters onFilter (inputs st) in
  ({| inputs := inputs1; debounceTimer := debounceTimer1; timers := timers1 |},
   apply).

(** What happens to the bar.  [SearchInput] and [TypeInput] carry the new
    value of the bound input; [Fire] is the timeout of timer [id];
    [ClearSearch] and [ClearType] are the two chip buttons. *)
Inductive Event :=
| SearchInput (value : string)
| TypeInput (value : string)
| Fire (id : positive)
| Reset
| ClearSearch
| ClearType.

Definition step {P} (onFilter : FilterValues.t -> P -> P) (ev : Event)
    (s : State * P) : State * P :=
  let '(st, parent) := s in
  match ev with
  | SearchInput value =>
      let st1 :=
        {| inputs := {| Filters.search := value;
                        Filters.type := Filters.type (inputs st) |};
           debounceTimer := debounceTimer st; timers := timers st |} in
      (handleSearchInput st1, parent)
  | TypeInput value =>
      let st1 :=
        {| inputs := {| Filters.search := Filters.search (inputs st);
                        Filters.type := value |};
           debounceTimer := debounceTimer st; timers := timers st |} in
      (st1, handleTypeChange onFilter st1 parent)
  | Fire id =>
      if bool_decide (id ∈ live (timers st)) then
        ({| inputs := inputs st; debounceTimer := debounceTimer st;
            timers := {| next := next (timers st);
                         live := live (timers st) ∖ {[ id ]} |} |},
         Filters.applyFilters onFilter (inputs st) parent)
      else (st, parent)
  | Reset =>
      let '(st1, apply) := resetFilters onFilter st in (st1, apply parent)
  | ClearSearch =>
      let st1 :=
        {| inputs := {| Filters.search := "";
                        Filters.type := Filters.type (inputs st) |};
           debounceTimer := debounceTimer st; timers := timers st |} in
      (st1, Filters.applyFilters onFilter (inputs st1) parent)
  | ClearType =>
      let st1 :=
        {| inputs := {| Filters.search := Filters.search (inputs st);
                        Filters.type := "" |};
           debounceTimer := debounceTimer st; timers := timers st |} in
      (st1, Filters.applyFilters onFilter (inputs st1) parent)
  end.

End FilterBar.

(** The bar and the store together: an event of the bar, or an insertion
    or a deletion in the store. *)
Inductive BarEvent :=
| OfBar (ev : FilterBar.Event)
| Insert (b : Browser) (analyzedDoc : Analyzed.t)
| Remove (id : string).

Definition bar_step (ev : BarEvent) (s : FilterBar.State * Page.State)
    : FilterBar.State * Page.State :=
  match ev with
  | OfBar ev => FilterBar.step Page.onFilter ev s
  | Insert b analyzedDoc => (fst s, Page.addDocument b analyzedDoc (snd s))
  | Remove id => (fst s, Page.deleteDocument id (snd s))
  end.

Definition bar_run (evs : list BarEvent) (s : FilterBar.State * Page.State)
    : FilterBar.State * Page.State :=
  fold_left (fun s ev => bar_step ev s) evs s.

(** * Specification-side definitions *)

(** [t] occurs in [s]: the specification side of [JS.includes]. *)
Definition Contains (s t : string) : Prop :=
  exists pre post : string, s = pre ++ t ++ post.

(** The query the filter bar builds from its two inputs. *)
Definition query (raw : Filters.State) : FilterValues.t :=
  {| FilterValues.search := JS.trim (Filters.search raw);
     FilterValues.type := JS.trim (Filters.type raw) |}.

(** Search: the lowered term occurs in the searchable text. *)
Definition passes_search (q : FilterValues.t) (d : Doc.t) : Prop :=
  Contains (Page.searchableText d) (JS.toLowerCase (FilterValues.search q)).

(** Type: no type asked for, or the document has a [tipo_documento] that
    equals the term up to case. *)
Definition passes_type (q : FilterValues.t) (d : Doc.t) : Prop :=
  FilterValues.type q = ""
  \/ exists ty, tipo_documento (Doc.extracted_data d) = Some ty
               /\ JS.toLowerCase ty = JS.toLowerCase (FilterValues.type q).

(** The pieces of the searchable text written out: the name, a space, the
    text of [tipo_documento], a space, every entry of [soggetti_coinvolti]
    followed by a space, and the text of [descrizione_breve].  An absent
    field gives the empty text, and keeps its separator. *)
Definition joined_fields (d : Doc.t) : string :=
  let data := Doc.extracted_data d in
  Doc.name d ++ " " ++ JS.elem_text (tipo_documento data) ++ " "
    ++ fold_right (fun s rest => s ++ " " ++ rest)
         (JS.elem_text (descrizione_breve data))
         (JS.arr_or (soggetti_coinvolti data) []).

(** The searchable text as the specification words it: the same fields
    concatenated, absent ones skipped. *)
Definition spec_searchableText (d : Doc.t) : string :=
  let data := Doc.extracted_data d in
  JS.toLowerCase
    (Doc.name d ++ JS.elem_text (tipo_documento data)
       ++ String.concat "" (JS.arr_or (soggetti_coinvolti data) [])
       ++ JS.elem_text (descrizione_breve data)).

(** What an id is built from. *)
Definition id_seed (b : Browser) : N * string := (Date_now b, Math_random b).

(** No ["-"] occurs in [s]. *)
Fixpoint no_dash (s : string) : Prop :=
  match s with
  | EmptyString => True
  | String c s' => c <> "-"%char /\ no_dash s'
  end.

(** The analysis failed: no answer at all, an answer that is not 2xx, or a
    2xx answer whose body does not parse. *)
Definition analysis_failed (outcome : UploadForm.Try UploadForm.Response) : Prop :=
  match outcome with
  | inl _ => True
  | inr (UploadForm.NotOk _ _) => True
  | inr (UploadForm.Ok (inl _)) => True
  | inr (UploadForm.Ok (inr _)) => False
  end.

(** The message the form shows for a failed analysis: the [error] of the
    server's answer as it is; the status when the answer carries none; a
    fixed text when the answer does not parse; the message of the error
    thrown by [fetch] or by the parser of a 2xx body. *)
Inductive surfaced : UploadForm.Try UploadForm.Response -> string -> Prop :=
| surfaced_server status e :
    e <> "" ->
    surfaced
      (inr (UploadForm.NotOk status (inr {| UploadForm.error_message := Some e |}))) e
| surfaced_status status e :
    e = None \/ e = Some "" ->
    surfaced
      (inr (UploadForm.NotOk status (inr {| UploadForm.error_message := e |})))
      ("Errore HTTP " ++ JS.number_text status)
| surfaced_unreadable status exn :
    surfaced (inr (UploadForm.NotOk status (inl exn)))
      "Errore di comunicazione con il server"
| surfaced_parse message :
    surfaced (inr (UploadForm.Ok (inl (UploadForm.ErrorObject message)))) message
| surfaced_parse_other :
    surfaced (inr (UploadForm.Ok (inl UploadForm.OtherValue)))
      "Errore sconosciuto durante l'upload"
| surfaced_network message :
    surfaced (inl (UploadForm.ErrorObject message)) message
| surfaced_network_other :
    surfaced (inl UploadForm.OtherValue) "Errore sconosciuto durante l'upload".

Definition limit (maxFileSize : N) : N := (maxFileSize * 1024 * 1024)%N.

(** Every file the form holds, and every file it has sent, is within the
    limit. *)
Definition within (maxFileSize : N) (a : App.State) : Prop :=
  (forall f, UploadForm.file (App.form a) = Some f ->
             (UploadForm.size f <= limit maxFileSize)%N)
  /\ (forall r, In r (App.sent a) ->
                (UploadForm.size (UploadForm.body r) <= limit maxFileSize)%N).


(** The filter bar and the store agree: every live timer is the one the
    bar remembers, and when none is live the filters of the store are the
    trimmed inputs of the bar. *)
Definition bar_in_sync (s : FilterBar.State * Page.State) : Prop :=
  (forall id, id ∈ FilterBar.live (FilterBar.timers (fst s)) ->
              FilterBar.debounceTimer (fst s) = Some id)
  /\ (FilterBar.live (FilterBar.timers (fst s)) = ∅ ->
      Page.filters (snd s) = query (FilterBar.inputs (fst s))).

(** * Sample data *)

Definition no_data : ExtractedData :=
  {| tipo_documento := None; data_documento := None;
     soggetti_coinvolti := None; descrizione_breve := None; importi := None |}.

Definition of_type (ty : string) : ExtractedData :=
  {| tipo_documento := Some ty; data_documento := None;
     soggetti_coinvolti := None; descrizione_breve := None; importi := None |}.

Definition two_docs : Page.State :=
  Page.addDocument
    {| Date_now := 1730000000456; Math_random := "0.25"; Date_toISOString := "2024-10-27T03:33:20.456Z" |}
    {| Analyzed.filename := "Contract B"; Analyzed.extracted_data := of_type "Contratto" |}
    (Page.addDocument
       {| Date_now := 1730000000123; Math_random := "0.5"; Date_toISOString := "2024-10-27T03:33:20.123Z" |}
       {| Analyzed.filename := "Invoice A"; Analyzed.extracted_data := of_type "Fattura" |}
       Page.init).

(** A store holding the single document named ["a"] of type ["b"]. *)
Definition store_a_b : Page.State :=
  Page.addDocument
    {| Date_now := 1; Math_random := "0.5"; Date_toISOString := "1970-01-01T00:00:00.001Z" |}
    {| Analyzed.filename := "a"; Analyzed.extracted_data := of_type "b" |}
    Page.init.

Definition doc_a_b : Doc.t :=
  {| Doc.id := "1-0.5"; Doc.name := "a";
     Doc.uploadedAt := "1970-01-01T00:00:00.001Z";
     Doc.extracted_data := of_type "b" |}.

(** The browser readings of the first insertion of [two_docs]. *)
Definition readings : Browser :=
  {| Date_now := 1730000000123; Math_random := "0.5";
     Date_toISOString := "2024-10-27T03:33:20.123Z" |}.

Definition invoice_a : Analyzed.t :=
  {| Analyzed.filename := "Invoice A"; Analyzed.extracted_data := of_type "Fattura" |}.

(** Browser readings later than those of [two_docs]. *)
Definition later : Browser :=
  {| Date_now := 1730000000789; Math_random := "0.75";
     Date_toISOString := "2024-10-27T03:33:20.789Z" |}.

(** An extraction with no [tipo_documento], and the store of [two_docs]
    with it inserted. *)
Definition notes : Analyzed.t :=
  {| Analyzed.filename := "Notes"; Analyzed.extracted_data := no_data |}.

Definition with_notes : Page.State := Page.addDocument later notes two_docs.


(** An answer of the backend that parses: the analysis of an invoice. *)
Definition accepts (_ : UploadForm.Request) : UploadForm.Try UploadForm.Response :=
  inr (UploadForm.Ok (inr invoice_a)).

(** The backend answers 404 with a body that carries no [error]. *)
Definition not_found (_ : UploadForm.Request) : UploadForm.Try UploadForm.Response :=
  inr (UploadForm.NotOk 404 (inr {| UploadForm.error_message := None |})).

(** Five cards for a list limited to three. *)
Definition five_cards : DocumentList.Props :=
  {| DocumentList.documents :=
       map (fun n => Page.newDoc
                       {| Date_now := n; Math_random := "0.5"; Date_toISOString := "" |}
                       invoice_a)
         [1; 2; 3; 4; 5]%N;
     DocumentList.isLoading := false;
     DocumentList.error := "";
     DocumentList.readonly := false;
     DocumentList.limit := 3 |}.

(** A small file, picked and ready to be sent. *)
Definition small_file : UploadForm.File :=
  {| UploadForm.file_name := "fattura.txt"; UploadForm.size := 2048 |}.

Definition picked : App.State :=
  App.step App.maxFileSize
    (App.FileChange
       {| UploadForm.files := Some [small_file];
          UploadForm.value := "C:\fakepath\fattura.txt" |})
    {| App.page := two_docs; App.form := UploadForm.init; App.sent := [] |}.

(** The backend answers 500 with an error text. *)
Definition refuses (_ : UploadForm.Request) : UploadForm.Try UploadForm.Response :=
  inr (UploadForm.NotOk 500
         (inr {| UploadForm.error_message := Some "Ollama non raggiungibile" |})).

(** A file of 10 MB and one byte. *)
Definition big_file : UploadForm.File :=
  {| UploadForm.file_name := "scan.pdf"; UploadForm.size := 10485761 |}.

(** * Properties *)

(** ** The model on small inputs *)

Example join_ex : JS.join " " [Some "a"; None; Some "b"] = "a  b".
Proof. reflexivity. Qed.

Example number_text_ex : JS.number_text 1730000000123 = "1730000000123" /\ JS.number_text 0 = "0".
Proof. split; reflexivity. Qed.

Example trim_ex : JS.trim "  Fat tura  " = "Fat tura" /\ JS.trim "   " = "".
Proof. split; reflexivity. Qed.

Example scenario_type :
  map Doc.name (Page.filtered (setFilter {| Filters.search := ""; Filters.type := "fattura" |} two_docs))
  = ["Invoice A"].
Proof. reflexivity. Qed.

Example scenario_search :
  map Doc.name (Page.filtered (setFilter {| Filters.search := "contract"; Filters.type := "" |} two_docs))
  = ["Contract B"].
Proof. reflexivity. Qed.

Example scenario_none :
  Page.filtered (setFilter {| Filters.search := "zzz"; Filters.type := "" |} two_docs) = [].
Proof. reflexivity. Qed.

Example scenario_ids :
  map Doc.id (Page.documents two_docs) = ["1730000000456-0.25"; "1730000000123-0.5"].
Proof. reflexivity. Qed.

(** ** Strings *)

Section Strings.

Implicit Types s t pre post : string.


Lemma append_assoc s t u : (s ++ t) ++ u = s ++ (t ++ u).
Proof. induction s as [|c s IH]; simpl; [reflexivity | now rewrite IH]. Qed.

Lemma Contains_nil s : Contains s "".
Proof. exists "", s. reflexivity. Qed.

Lemma Contains_cons c s t : Contains s t -> Contains (String c s) t.
Proof. intros (pre & post & ->). exists (String c pre), post. reflexivity. Qed.

Lemma startsWith_spec s t :
  JS.startsWith s t = true <-> exists post, s = t ++ post.
Proof.
  revert s. induction t as [|c t IH]; intros s; simpl.
  - split; [intros _; exists s; reflexivity | reflexivity].
  - destruct s as [|d s].
    + split; [discriminate | intros (post & H); discriminate].
    + rewrite andb_true_iff, Ascii.eqb_eq, IH. split.
      * intros (-> & post & ->). exists post. reflexivity.
      * intros (post & H). injection H as -> ->. split; [reflexivity | now exists post].
Qed.

(** [JS.includes] decides [Contains]. *)
Lemma includes_spec s t : JS.includes s t = true <-> Contains s t.
Proof.
  induction s as [|c s IH].
  - simpl. rewrite orb_false_r, startsWith_spec. split.
    + intros (post & H). exists "", post. exact H.
    + intros (pre & post & H). destruct pre; simpl in H; [now exists post | discriminate].
  - cbn [JS.includes]. rewrite orb_true_iff, IH, startsWith_spec. split.
    + intros [(post & H) | H].
      * exists "", post. exact H.
      * now apply Contains_cons.
    + intros (pre & post & H). destruct pre as [|d pre]; simpl in H.
      * left. now exists post.
      * right. injection H as _ ->. now exists pre, post.
Qed.

Lemma truthy_spec s : JS.truthy s = true <-> s <> "".
Proof.
  unfold JS.truthy. rewrite negb_true_iff. apply String.eqb_neq.
Qed.

Lemma truthy_false s : JS.truthy s = false <-> s = "".
Proof.
  unfold JS.truthy. rewrite negb_false_iff. apply String.eqb_eq.
Qed.

Lemma toLowerCase_nil s : JS.toLowerCase s = "" <-> s = "".
Proof. destruct s; simpl; split; congruence. Qed.


(** [x || ''] is the text of [x]. *)
Lemma str_or_nil (x : option string) : JS.str_or x "" = JS.elem_text x.
Proof.
  destruct x as [s|]; simpl; [|reflexivity].
  destruct (JS.truthy s) eqn:E; [reflexivity|].
  apply truthy_false in E. now subst.
Qed.

End Strings.

(** ** The filtered view *)

#[global] Instance Contains_dec s t : Decision (Contains s t).
Proof.
  destruct (JS.includes s t) eqn:E.
  - left. now apply includes_spec.
  - right. intros H. apply includes_spec in H. congruence.
Defined.

#[global] Instance passes_search_dec q d : Decision (passes_search q d).
Proof. unfold passes_search. apply _. Defined.

#[global] Instance passes_type_dec q d : Decision (passes_type q d).
Proof.
  unfold passes_type.
  destruct (decide (FilterValues.type q = "")) as [E|E]; [left; now left|].
  destruct (tipo_documento (Doc.extracted_data d)) as [ty|] eqn:T.
  - destruct (decide (JS.toLowerCase ty = JS.toLowerCase (FilterValues.type q))) as [L|L].
    + left. right. now exists ty.
    + right. intros [H | (ty' & H1 & H2)]; [contradiction | congruence].
  - right. intros [H | (ty' & H1 & H2)]; [contradiction | discriminate].
Defined.

Section View.

Implicit Types (q : FilterValues.t) (d : Doc.t) (st : Page.State).

Lemma keep_search_type q d :
  Page.keep q d = true <-> passes_search q d /\ passes_type q d.
Proof.
  unfold Page.keep, passes_search, passes_type. cbv zeta.
  rewrite str_or_nil.
  destruct q as [s ty]; cbn [FilterValues.search FilterValues.type].
  destruct (JS.includes (Page.searchableText d) (JS.toLowerCase s)) eqn:I.
  - apply includes_spec in I. rewrite andb_false_r.
    destruct (JS.truthy ty) eqn:T; cbn [andb].
    + apply truthy_spec in T.
      destruct (String.eqb_spec
                  (JS.toLowerCase (JS.elem_text (tipo_documento (Doc.extracted_data d))))
                  (JS.toLowerCase ty)) as [E|E]; cbn [negb].
      * split; [intros _ | reflexivity]. split; [exact I | right].
        destruct (tipo_documento (Doc.extracted_data d)) as [t0|]; simpl in E.
        -- now exists t0.
        -- symmetry in E. apply (proj1 (toLowerCase_nil _)) in E. contradiction.
      * split; [discriminate|]. intros (_ & [H | (t0 & H1 & H2)]); [contradiction|].
        rewrite H1 in E. simpl in E. contradiction.
    + apply truthy_false in T. subst ty. split; [intros _ | reflexivity].
      split; [exact I | now left].
  - assert (N : ~ Contains (Page.searchableText d) (JS.toLowerCase s)).
    { intros H. apply includes_spec in H. congruence. }
    destruct (JS.truthy s) eqn:T; cbn [andb negb].
    + split; [discriminate | intros (H & _); contradiction].
    + apply truthy_false in T. subst s. exfalso. apply N, Contains_nil.
Qed.

(** [Array.prototype.filter] with the callback of [applyFilters] is the
    filter by the two predicates. *)
Lemma filter_keep q (docs : list Doc.t) :
  List.filter (Page.keep q) docs
  = filter (fun d => passes_search q d /\ passes_type q d) docs.
Proof.
  induction docs as [|d docs IH]; [reflexivity|].
  cbn [List.filter]. rewrite filter_cons, IH.
  destruct (Page.keep q d) eqn:K; case_decide as H; try reflexivity.
  - apply keep_search_type in K. contradiction.
  - apply keep_search_type in H. congruence.
Qed.

Lemma filter_sublist {A} (f : A -> bool) (l : list A) :
  sublist (List.filter f l) l.
Proof.
  induction l as [|x l IH]; cbn [List.filter]; [constructor|].
  destruct (f x); now constructor.
Qed.

Lemma filter_all {A} (f : A -> bool) (l : list A) :
  (forall x, In x l -> f x = true) -> List.filter f l = l.
Proof.
  induction l as [|x l IH]; cbn [List.filter]; intros H; [reflexivity|].
  rewrite (H x (or_introl eq_refl)), IH; [reflexivity|].
  intros y Hy. apply H. now right.
Qed.

Lemma setFilter_filtered raw st :
  Page.filtered (setFilter raw st)
  = List.filter (Page.keep (query raw)) (Page.documents st).
Proof. reflexivity. Qed.

Lemma setFilter_documents raw st :
  Page.documents (setFilter raw st) = Page.documents st.
Proof. reflexivity. Qed.

End View.

Lemma join_entries (l : list string) (last : option string) :
  JS.join " " (map Some l ++ [last])%list
  = fold_right (fun s rest => s ++ " " ++ rest) (JS.elem_text last) l.
Proof.
  induction l as [|s l IH]; [reflexivity|].
  cbn [map app fold_right]. rewrite <- IH.
  destruct l; reflexivity.
Qed.

Lemma searchableText_joined (d : Doc.t) :
  Page.searchableText d = JS.toLowerCase (joined_fields d).
Proof.
  unfold Page.searchableText, joined_fields. cbv zeta.
  rewrite <- join_entries.
  destruct (JS.arr_or (soggetti_coinvolti (Doc.extracted_data d)) []); reflexivity.
Qed.

Lemma trim_nil : JS.trim "" = "".
Proof. reflexivity. Qed.

Lemma passes_type_nil (s : string) (d : Doc.t) :
  passes_type {| FilterValues.search := s; FilterValues.type := "" |} d.
Proof. now left. Qed.

Lemma passes_search_nil (ty : string) (d : Doc.t) :
  passes_search {| FilterValues.search := ""; FilterValues.type := ty |} d.
Proof. apply Contains_nil. Qed.

Lemma in_filtered (st : Page.State) (raw : Filters.State) (d : Doc.t) :
  In d (Page.filtered (setFilter raw st))
  <-> In d (Page.documents st)
      /\ passes_search (query raw) d /\ passes_type (query raw) d.
Proof.
  rewrite setFilter_filtered, filter_In, keep_search_type. reflexivity.
Qed.

(** C1, as the specification states it, fails: with the fields
    concatenated the document named ["a"] of type ["b"] would answer the
    search ["ab"], but its searchable text is ["a b "] and the view is
    empty. *)
Lemma search_concatenation_counterexample :
  ~ (forall (st : Page.State) (term : string) (d : Doc.t),
       In d (Page.filtered
               (setFilter {| Filters.search := term; Filters.type := "" |} st))
       <-> In d (Page.documents st)
           /\ Contains (spec_searchableText d) (JS.toLowerCase (JS.trim term))).
Proof.
  intros H.
  destruct (H store_a_b "ab" doc_a_b) as [_ H2].
  assert (E : Page.filtered
                (setFilter {| Filters.search := "ab"; Filters.type := "" |} store_a_b)
              = []) by reflexivity.
  rewrite E in H2. apply H2. split.
  - left. reflexivity.
  - exists "", "". reflexivity.
Qed.

(** An absent field keeps its separator: a document named ["a"] with no
    type and the description ["b"] has the text ["a  b"], with two spaces,
    so that the search ["a b"] does not find it. *)
Example absent_field_keeps_separator :
  Page.searchableText
    {| Doc.id := "1-0.5"; Doc.name := "a"; Doc.uploadedAt := "";
       Doc.extracted_data :=
         {| tipo_documento := None; data_documento := None;
            soggetti_coinvolti := None; descrizione_breve := Some "b";
            importi := None |} |}
  = "a  b".
Proof. reflexivity. Qed.

(** C1 (amended): with no type filter, a document is in the filtered view
    iff it is in the collection and the lowered, trimmed search term occurs
    in its lowered searchable text, which is the name, [tipo_documento],
    the entries of [soggetti_coinvolti] and [descrizione_breve] joined by
    single spaces, an absent field counting as the empty text; the empty
    search admits every document. *)
Theorem search_filter_joined (st : Page.State) (term : string) (d : Doc.t) :
  (In d (Page.filtered
           (setFilter {| Filters.search := term; Filters.type := "" |} st))
   <-> In d (Page.documents st)
       /\ Contains (JS.toLowerCase (joined_fields d))
            (JS.toLowerCase (JS.trim term)))
  /\ Page.filtered
       (setFilter {| Filters.search := ""; Filters.type := "" |} st)
     = Page.documents st.
Proof.
  split.
  - rewrite in_filtered, <- searchableText_joined.
    unfold passes_search, query; cbn [FilterValues.search Filters.search].
    split; [intros (H1 & H2 & _); now split|].
    intros (H1 & H2). repeat split; [exact H1 | exact H2 | apply passes_type_nil].
  - rewrite setFilter_filtered. apply filter_all.
    intros x _. apply keep_search_type. split.
    + apply passes_search_nil.
    + apply passes_type_nil.
Qed.

(** C2: with no search term, a document is in the filtered view iff it is
    in the collection and either the trimmed type is empty or the document
    has a [tipo_documento] equal to the trimmed type up to case; a document
    with no [tipo_documento] is in no view taken with a non-empty type,
    whatever the search term. *)
Theorem type_filter_exact (st : Page.State) (term ty : string) (d : Doc.t) :
  (In d (Page.filtered
           (setFilter {| Filters.search := ""; Filters.type := ty |} st))
   <-> In d (Page.documents st)
       /\ (JS.trim ty = ""
           \/ exists t0, tipo_documento (Doc.extracted_data d) = Some t0
                         /\ JS.toLowerCase t0 = JS.toLowerCase (JS.trim ty)))
  /\ (tipo_documento (Doc.extracted_data d) = None ->
      JS.trim ty <> "" ->
      ~ In d (Page.filtered
                (setFilter {| Filters.search := term; Filters.type := ty |} st))).
Proof.
  split.
  - rewrite in_filtered.
    unfold passes_type, query; cbn [FilterValues.type Filters.type Filters.search].
    split; [intros (H1 & _ & H2); now split|].
    intros (H1 & H2). repeat split; [exact H1 | apply passes_search_nil | exact H2].
  - intros Habs Hty Hin. apply in_filtered in Hin as (_ & _ & [H | (t0 & H & _)]).
    + apply Hty, H.
    + rewrite Habs in H. discriminate.
Qed.

(** A document with no type, found by the search ["notes"], is dropped as
    soon as a type is asked for. *)
Lemma type_filter_exact_witness :
  tipo_documento (Doc.extracted_data (Page.newDoc later notes)) = None
  /\ JS.trim " fattura " <> ""
  /\ In (Page.newDoc later notes)
       (Page.filtered
          (setFilter {| Filters.search := "notes"; Filters.type := "" |} with_notes))
  /\ ~ In (Page.newDoc later notes)
         (Page.filtered
            (setFilter {| Filters.search := "notes"; Filters.type := " fattura " |}
               with_notes)).
Proof.
  split; [reflexivity|]. split; [discriminate|]. split; [left; reflexivity|].
  apply (type_filter_exact with_notes "notes" " fattura " (Page.newDoc later notes)).
  - reflexivity.
  - discriminate.
Defined.

(** C3: the filtered view computed from a collection and a query is the
    collection filtered by the conjunction of the search and the type
    predicate: it holds exactly the documents passing both, it is a
    sublist of the collection (same relative order, nothing added), and
    the collection itself is left as it was. *)
Theorem filtered_view_exact (st : Page.State) (raw : Filters.State) :
  Page.filtered (setFilter raw st)
  = filter (fun d => passes_search (query raw) d /\ passes_type (query raw) d)
      (Page.documents st)
  /\ (forall d, In d (Page.filtered (setFilter raw st))
                <-> In d (Page.documents st)
                    /\ passes_search (query raw) d /\ passes_type (query raw) d)
  /\ sublist (Page.filtered (setFilter raw st)) (Page.documents st)
  /\ Page.documents (setFilter raw st) = Page.documents st.
Proof.
  split; [|split; [|split]].
  - rewrite setFilter_filtered. apply filter_keep.
  - intros d. apply in_filtered.
  - rewrite setFilter_filtered. apply filter_sublist.
  - reflexivity.
Qed.

(** ** The path gate *)

Example canonical_ex :
  Backend.canonical ["srv"; "app"] "frontend/../frontend/./svelte.config.js"
  = ["srv"; "app"; "frontend"; "svelte.config.js"]
  /\ Backend.canonical ["srv"; "app"] "../../etc/passwd" = ["etc"; "passwd"]
  /\ Backend.canonical ["srv"; "app"] "/etc/passwd" = ["etc"; "passwd"].
Proof. repeat split. Qed.

(** Whatever is read lies in the root or below it. *)
Lemma reads_inside_root (root : list string)
    (read : list string -> option string) (p : string) (loc : list string) :
  In loc (snd (Backend.analyze_file root read p)) -> root `prefix_of` loc.
Proof.
  unfold Backend.analyze_file.
  destruct (Backend.is_absolute p); [intros []|]. cbv zeta.
  case_bool_decide as Hin.
  - destruct (read (Backend.canonical root p)); intros [<- | []]; exact Hin.
  - intros [].
Qed.

(** A path that ends above the depth of the root is outside it. *)
Lemma shorter_is_outside (root : list string) (p : string) :
  length (Backend.canonical root p) < length root ->
  Backend.resolves_outside root p.
Proof.
  intros Hlen Hpre. apply prefix_length in Hpre. lia.
Qed.

(** C9: a path that resolves outside the configured root, through [..]
    segments or otherwise, and any absolute path, is answered with
    [InvalidInput], and no file is read. *)
Theorem path_outside_root_rejected (root : list string)
    (read : list string -> option string) (p : string) :
  Backend.is_absolute p = true \/ Backend.resolves_outside root p ->
  Backend.analyze_file root read p = (inl Backend.InvalidInput, []).
Proof.
  unfold Backend.analyze_file, Backend.resolves_outside.
  intros [H | H].
  - now rewrite H.
  - destruct (Backend.is_absolute p); [reflexivity|].
    cbv zeta. rewrite bool_decide_eq_false_2 by exact H. reflexivity.
Qed.

Lemma path_outside_root_rejected_witness :
  Backend.resolves_outside ["srv"; "app"] "docs/../../../etc/passwd"
  /\ Backend.analyze_file ["srv"; "app"] (fun _ => Some "secret")
       "docs/../../../etc/passwd"
     = (inl Backend.InvalidInput, []).
Proof.
  assert (H : Backend.resolves_outside ["srv"; "app"] "docs/../../../etc/passwd").
  { unfold Backend.resolves_outside. intros [k Hk]. vm_compute in Hk. discriminate. }
  split; [exact H|].
  apply (path_outside_root_rejected ["srv"; "app"] (fun _ => Some "secret")
           "docs/../../../etc/passwd").
  right. exact H.
Defined.

(** ** Ids *)

Lemma no_dash_uint (d : Decimal.uint) : no_dash (NilEmpty.string_of_uint d).
Proof. induction d; simpl; (split; [discriminate | assumption]) || exact I. Qed.

Lemma no_dash_number_text (n : N) : no_dash (JS.number_text n).
Proof. apply no_dash_uint. Qed.

Lemma number_text_inj (n m : N) : JS.number_text n = JS.number_text m -> n = m.
Proof.
  unfold JS.number_text. intros H.
  apply DecimalN.Unsigned.to_uint_inj.
  assert (E : Some (N.to_uint n) = Some (N.to_uint m)).
  { rewrite <- !NilEmpty.usu. now rewrite H. }
  now injection E.
Qed.

(** Two texts cut at their first ["-"] agree piece by piece. *)
Lemma dash_split (s1 s2 r1 r2 : string) :
  no_dash s1 -> no_dash s2 ->
  s1 ++ "-" ++ r1 = s2 ++ "-" ++ r2 -> s1 = s2 /\ r1 = r2.
Proof.
  revert s2. induction s1 as [|c s1 IH]; intros [|c2 s2]; simpl.
  - intros _ _ H. injection H as ->. now split.
  - intros _ [N2 _] H. injection H as <- _. now destruct N2.
  - intros [N1 _] _ H. injection H as -> _. now destruct N1.
  - intros [_ H1] [_ H2] H. injection H as -> H.
    destruct (IH s2 H1 H2 H) as [-> ->]. now split.
Qed.

(** The id tells the clock reading and the random draw it was built from. *)
Lemma newDoc_id_inj (b b' : Browser) (a a' : Analyzed.t) :
  Doc.id (Page.newDoc b a) = Doc.id (Page.newDoc b' a') <-> id_seed b = id_seed b'.
Proof.
  unfold id_seed. cbn [Page.newDoc Doc.id]. split.
  - intros H. apply dash_split in H as [H1 H2]; try apply no_dash_number_text.
    apply number_text_inj in H1. congruence.
  - intros H. injection H as -> ->. reflexivity.
Qed.

(** ** Insertion and removal *)

Lemma reachable_in_sync (st : Page.State) :
  reachable st ->
  Page.filtered st = List.filter (Page.keep (Page.filters st)) (Page.documents st).
Proof. induction 1; reflexivity. Qed.

Lemma inserts_app ins1 ins2 st :
  inserts (ins1 ++ ins2) st = inserts ins2 (inserts ins1 st).
Proof. apply fold_left_app. Qed.

Lemma inserts_documents (ins : list (Browser * Analyzed.t)) (st : Page.State) :
  Page.documents (inserts ins st)
  = (rev (map (fun i => Page.newDoc (fst i) (snd i)) ins) ++ Page.documents st)%list.
Proof.
  revert st. induction ins as [|i ins IH]; intros st; [reflexivity|].
  cbn [inserts fold_left map rev]. fold (inserts ins (Page.addDocument (fst i) (snd i) st)).
  rewrite IH. cbn [Page.addDocument Page.applyFilters Page.documents].
  now rewrite <- app_assoc.
Qed.

Lemma reachable_inserts ins st : reachable st -> reachable (inserts ins st).
Proof.
  revert st. induction ins as [|i ins IH]; intros st H; [exact H|].
  apply IH. now constructor.
Qed.

Lemma delete_absent (id : string) (docs : list Doc.t) :
  (forall d, In d docs -> Doc.id d <> id) ->
  List.filter (fun d => negb (String.eqb (Doc.id d) id)) docs = docs.
Proof.
  intros H. apply filter_all. intros d Hd.
  apply negb_true_iff, String.eqb_neq. now apply H.
Qed.

Lemma delete_filter (id : string) (docs : list Doc.t) :
  List.filter (fun d => negb (String.eqb (Doc.id d) id)) docs
  = filter (fun d => Doc.id d <> id) docs.
Proof.
  induction docs as [|d docs IH]; [reflexivity|].
  cbn [List.filter]. rewrite filter_cons, IH.
  destruct (String.eqb_spec (Doc.id d) id) as [E|E]; cbn [negb];
    case_decide; try reflexivity; contradiction.
Qed.

(** C4, as the specification states it, fails on the freshness of the id:
    when the clock and [Math.random] read the same twice, the second
    document gets the id of the first. *)
Lemma insert_id_collision_counterexample :
  ~ (forall (b : Browser) (a : Analyzed.t) (st : Page.State),
       reachable st ->
       ~ In (Doc.id (Page.newDoc b a)) (map Doc.id (Page.documents st))).
Proof.
  intros H.
  apply (H readings invoice_a (Page.addDocument readings invoice_a Page.init)).
  - do 2 constructor.
  - left. reflexivity.
Qed.

(** C4 (amended): [addDocument] builds a document whose id is the clock
    reading and the random draw joined by ["-"], whose timestamp is the
    current one and whose name and data are those of the extraction; it
    puts it in front of the collection, every earlier document staying as
    and where it was, so that a run of insertions leaves the collection
    most recent first; it recomputes the filtered view from the new
    collection and the unchanged filters.  The id differs from the id of
    any document built from another clock reading or random draw. *)
Theorem insert_prepends (b : Browser) (a : Analyzed.t) (st : Page.State) :
  Page.documents (Page.addDocument b a st) = Page.newDoc b a :: Page.documents st
  /\ Doc.id (Page.newDoc b a) = JS.number_text (Date_now b) ++ "-" ++ Math_random b
  /\ Doc.uploadedAt (Page.newDoc b a) = Date_toISOString b
  /\ Doc.name (Page.newDoc b a) = Analyzed.filename a
  /\ Doc.extracted_data (Page.newDoc b a) = Analyzed.extracted_data a
  /\ (forall ins,
        Page.documents (inserts ins st)
        = (rev (map (fun i => Page.newDoc (fst i) (snd i)) ins)
             ++ Page.documents st)%list)
  /\ Page.filtered (Page.addDocument b a st)
     = filter (fun d => passes_search (Page.filters st) d
                        /\ passes_type (Page.filters st) d)
         (Page.newDoc b a :: Page.documents st)
  /\ Page.filters (Page.addDocument b a st) = Page.filters st
  /\ (forall b' a',
        Doc.id (Page.newDoc b' a') = Doc.id (Page.newDoc b a)
        <-> id_seed b' = id_seed b).
Proof.
  repeat match goal with |- _ /\ _ => split end; try reflexivity.
  - intros ins. apply inserts_documents.
  - cbn [Page.addDocument Page.applyFilters Page.filtered Page.documents Page.filters].
    apply filter_keep.
  - intros b' a'. apply newDoc_id_inj.
Qed.

(** C5, as the specification states it, fails: a second insertion made
    under the same clock reading and random draw gets the id of the first,
    and removing that id takes both documents away. *)
Lemma insert_remove_collision_counterexample :
  ~ (forall (b : Browser) (a : Analyzed.t) (st : Page.State),
       reachable st ->
       Page.documents
         (Page.deleteDocument (Doc.id (Page.newDoc b a)) (Page.addDocument b a st))
       = Page.documents st).
Proof.
  intros H.
  specialize (H readings invoice_a (Page.addDocument readings invoice_a Page.init)).
  assert (R : reachable (Page.addDocument readings invoice_a Page.init))
    by do 2 constructor.
  specialize (H R). vm_compute in H. discriminate.
Qed.

(** C5 (amended): when no document of the collection carries the id the
    insertion generates, inserting and then removing that id gives back
    the collection, same documents in the same order, and the whole store
    when it was in a reachable state; the ids of a run of insertions are
    pairwise distinct whenever the pairs of clock reading and random draw
    they are built from are. *)
Theorem insert_remove_restores (b : Browser) (a : Analyzed.t) (st : Page.State) :
  (forall d, In d (Page.documents st) -> Doc.id d <> Doc.id (Page.newDoc b a)) ->
  Page.documents
    (Page.deleteDocument (Doc.id (Page.newDoc b a)) (Page.addDocument b a st))
  = Page.documents st
  /\ (reachable st ->
      Page.deleteDocument (Doc.id (Page.newDoc b a)) (Page.addDocument b a st) = st)
  /\ (forall ins : list (Browser * Analyzed.t),
        NoDup (map (fun i => id_seed (fst i)) ins) ->
        NoDup (map Doc.id (Page.documents (inserts ins Page.init)))).
Proof.
  intros Hfresh.
  assert (D : Page.documents
                (Page.deleteDocument (Doc.id (Page.newDoc b a)) (Page.addDocument b a st))
              = Page.documents st).
  { cbn [Page.deleteDocument Page.addDocument Page.applyFilters Page.documents
           List.filter].
    rewrite String.eqb_refl. cbn [negb]. now apply delete_absent. }
  split; [exact D|]. split.
  - intros R. apply reachable_in_sync in R.
    destruct st as [docs flt q le il]. cbn [Page.documents Page.filtered Page.filters] in *.
    unfold Page.deleteDocument, Page.addDocument, Page.applyFilters.
    cbn [Page.documents Page.filtered Page.filters Page.loadingError
           Page.isLoading List.filter].
    rewrite String.eqb_refl. cbn [negb].
    rewrite delete_absent by exact Hfresh. now rewrite <- R.
  - intros ins Hnd. apply NoDup_ListNoDup. apply NoDup_ListNoDup in Hnd.
    rewrite inserts_documents, app_nil_r, map_rev.
    apply List.NoDup_rev. rewrite map_map.
    induction ins as [|i ins IH]; [constructor|].
    cbn [map] in *. apply List.NoDup_cons_iff in Hnd as [Hi Hnd].
    apply List.NoDup_cons_iff. split; [|now apply IH].
    intros Hin. apply Hi.
    apply in_map_iff in Hin as (j & Hj & Hjin).
    apply newDoc_id_inj in Hj.
    apply in_map_iff. now exists j.
Qed.

Lemma insert_remove_restores_witness :
  (forall d, In d (Page.documents two_docs) ->
             Doc.id d <> Doc.id (Page.newDoc later invoice_a))
  /\ Page.documents
       (Page.deleteDocument (Doc.id (Page.newDoc later invoice_a))
          (Page.addDocument later invoice_a two_docs))
     = Page.documents two_docs.
Proof.
  assert (F : forall d, In d (Page.documents two_docs) ->
                        Doc.id d <> Doc.id (Page.newDoc later invoice_a)).
  { intros d [<- | [<- | []]]; discriminate. }
  split; [exact F|].
  exact (proj1 (insert_remove_restores later invoice_a two_docs F)).
Defined.

(** C8: [deleteDocument] keeps exactly the documents whose id is not the
    given one, in their order, and recomputes the filtered view from what
    is left and the unchanged filters; it is a total function, so nothing
    is raised; when no document carries the id, the collection is the same,
    and in a reachable state of the store so are the filtered view and the
    whole state. *)
Theorem remove_exact (id : string) (st : Page.State) :
  Page.documents (Page.deleteDocument id st)
  = filter (fun d => Doc.id d <> id) (Page.documents st)
  /\ (forall d, In d (Page.documents (Page.deleteDocument id st))
                <-> In d (Page.documents st) /\ Doc.id d <> id)
  /\ sublist (Page.documents (Page.deleteDocument id st)) (Page.documents st)
  /\ Page.filtered (Page.deleteDocument id st)
     = filter (fun d => passes_search (Page.filters st) d
                        /\ passes_type (Page.filters st) d)
         (Page.documents (Page.deleteDocument id st))
  /\ Page.filters (Page.deleteDocument id st) = Page.filters st
  /\ ((forall d, In d (Page.documents st) -> Doc.id d <> id) ->
      Page.documents (Page.deleteDocument id st) = Page.documents st
      /\ (reachable st -> Page.deleteDocument id st = st)).
Proof.
  split; [|split; [|split; [|split; [|split]]]].
  - apply delete_filter.
  - intros d. cbn [Page.deleteDocument Page.applyFilters Page.documents].
    rewrite filter_In, negb_true_iff, String.eqb_neq. reflexivity.
  - apply filter_sublist.
  - cbn [Page.deleteDocument Page.applyFilters Page.documents Page.filtered
           Page.filters].
    apply filter_keep.
  - reflexivity.
  - intros Habs.
    assert (D : Page.documents (Page.deleteDocument id st) = Page.documents st).
    { cbn [Page.deleteDocument Page.applyFilters Page.documents].
      now apply delete_absent. }
    split; [exact D|].
    intros R. apply reachable_in_sync in R.
    destruct st as [docs flt q le il].
    cbn [Page.documents Page.filtered Page.filters] in *.
    unfold Page.deleteDocument, Page.applyFilters.
    cbn [Page.documents Page.filtered Page.filters Page.loadingError
           Page.isLoading].
    rewrite delete_absent by exact Habs. now rewrite <- R.
Qed.

(** Removing an id nobody carries from the two-document store. *)
Lemma remove_exact_witness :
  (forall d, In d (Page.documents two_docs) -> Doc.id d <> "no-such-id")
  /\ reachable two_docs
  /\ Page.deleteDocument "no-such-id" two_docs = two_docs.
Proof.
  assert (F : forall d, In d (Page.documents two_docs) -> Doc.id d <> "no-such-id").
  { intros d [<- | [<- | []]]; discriminate. }
  assert (R : reachable two_docs) by do 3 constructor.
  split; [exact F|]. split; [exact R|].
  exact (proj2 (proj2 (proj2 (proj2 (proj2 (proj2
           (remove_exact "no-such-id" two_docs))))) F) R).
Defined.

(** ** The upload form *)

Lemma str_or_cases (x : option string) (d : string) :
  (exists e, x = Some e /\ e <> "" /\ JS.str_or x d = e)
  \/ ((x = None \/ x = Some "") /\ JS.str_or x d = d).
Proof.
  destruct x as [e|]; simpl.
  - destruct (JS.truthy e) eqn:T.
    + left. exists e. apply truthy_spec in T. now repeat split.
    + right. apply truthy_false in T. subst. split; [now right | reflexivity].
  - right. split; [now left | reflexivity].
Qed.

Lemma analyze_failed (fetch : UploadForm.Request -> UploadForm.Try UploadForm.Response)
    (r : UploadForm.Request) :
  analysis_failed (fetch r) ->
  exists err, UploadForm.analyze fetch r = inl err
              /\ surfaced (fetch r)
                   match err with
                   | UploadForm.ErrorObject message => message
                   | UploadForm.OtherValue => "Errore sconosciuto durante l'upload"
                   end.
Proof.
  unfold UploadForm.analyze, UploadForm.bind, UploadForm.catch,
    UploadForm.throw, analysis_failed.
  destruct (fetch r) as [exn | [status [exn | [e]] | [exn | a]]];
    cbv beta iota; intros F.
  - exists exn. split; [reflexivity|]. destruct exn; constructor.
  - eexists. split; [reflexivity|]. cbn. apply surfaced_unreadable.
  - eexists. split; [reflexivity|]. cbn [UploadForm.error_message].
    destruct (str_or_cases e ("Errore HTTP " ++ JS.number_text status))
      as [(e0 & -> & Hne & ->) | (Hnone & ->)].
    + now apply surfaced_server.
    + now apply surfaced_status.
  - exists exn. split; [reflexivity|]. destruct exn; constructor.
  - destruct F.
Qed.

(** C6: when the analysis of a submitted file fails, the form shows the
    message of the failure (the server's [error] text as it is, when there
    is one) and stops loading; the page, with its collection and its
    filtered view, is the same as before: [addDocument] is not called and
    no document is made. *)
Theorem failed_analysis_no_document (maxFileSize : N) (b : Browser)
    (fetch : UploadForm.Request -> UploadForm.Try UploadForm.Response)
    (f : UploadForm.File) (a : App.State) :
  UploadForm.file (App.form a) = Some f ->
  analysis_failed (fetch (UploadForm.request_of f)) ->
  exists message,
    surfaced (fetch (UploadForm.request_of f)) message
    /\ App.step maxFileSize (App.Submit fetch b) a
       = {| App.page := App.page a;
            App.form :=
              {| UploadForm.file := Some f;
                 UploadForm.error := message;
                 UploadForm.isLoading := false;
                 UploadForm.input_value := UploadForm.input_value (App.form a) |};
            App.sent := (App.sent a ++ [UploadForm.request_of f])%list |}.
Proof.
  intros Hf Hfail.
  destruct (analyze_failed fetch _ Hfail) as (err & HA & Hs).
  eexists. split; [exact Hs|].
  unfold App.step, UploadForm.onSubmit. rewrite Hf. cbv zeta. rewrite HA.
  reflexivity.
Qed.

Lemma failed_analysis_no_document_witness :
  UploadForm.file (App.form picked) = Some small_file
  /\ analysis_failed (refuses (UploadForm.request_of small_file))
  /\ exists message,
       surfaced (refuses (UploadForm.request_of small_file)) message
       /\ App.step App.maxFileSize (App.Submit refuses later) picked
          = {| App.page := App.page picked;
               App.form :=
                 {| UploadForm.file := Some small_file;
                    UploadForm.error := message;
                    UploadForm.isLoading := false;
                    UploadForm.input_value := UploadForm.input_value (App.form picked) |};
               App.sent := (App.sent picked ++ [UploadForm.request_of small_file])%list |}.
Proof.
  split; [reflexivity|]. split; [exact I|].
  apply (failed_analysis_no_document App.maxFileSize later refuses small_file picked).
  - reflexivity.
  - exact I.
Defined.

Example failed_analysis_message :
  UploadForm.error (App.form (App.step App.maxFileSize (App.Submit refuses later) picked))
  = "Ollama non raggiungibile"
  /\ App.page (App.step App.maxFileSize (App.Submit refuses later) picked) = two_docs.
Proof. split; reflexivity. Qed.

(** ** The size limit *)

Lemma run_snoc (maxFileSize : N) (evs : list App.Event) (ev : App.Event) (a : App.State) :
  App.run maxFileSize (evs ++ [ev]) a
  = App.step maxFileSize ev (App.run maxFileSize evs a).
Proof. unfold App.run. now rewrite fold_left_app. Qed.

Lemma onFileChange_file (maxFileSize : N) (e : UploadForm.ChangeEvent)
    (st : UploadForm.State) (f : UploadForm.File) :
  UploadForm.file (UploadForm.onFileChange maxFileSize e st) = Some f
  <-> UploadForm.first_file e = Some f
      /\ (UploadForm.size f <= limit maxFileSize)%N.
Proof.
  unfold UploadForm.onFileChange, limit.
  destruct (UploadForm.first_file e) as [g|]; cbv zeta.
  - destruct (N.ltb_spec (maxFileSize * 1024 * 1024) (UploadForm.size g)) as [L|L];
      cbn [UploadForm.file].
    + split; [discriminate|]. intros [E H]. injection E as ->. lia.
    + split.
      * intros E. injection E as ->. now split.
      * now intros [E _].
  - cbn [UploadForm.file]. split; [discriminate | now intros [E _]].
Qed.

Lemma onSubmit_cases {P} (onAdd : Analyzed.t -> P -> P)
    (fetch : UploadForm.Request -> UploadForm.Try UploadForm.Response)
    (st : UploadForm.State) (parent : P) :
  (UploadForm.file st = None
   /\ exists st', UploadForm.onSubmit onAdd fetch st parent = (st', parent, [])
                  /\ UploadForm.file st' = None)
  \/ (exists f st' parent',
        UploadForm.file st = Some f
        /\ UploadForm.onSubmit onAdd fetch st parent
           = (st', parent', [UploadForm.request_of f])
        /\ (UploadForm.file st' = None \/ UploadForm.file st' = Some f)).
Proof.
  unfold UploadForm.onSubmit.
  destruct (UploadForm.file st) as [f|].
  - right. cbv zeta.
    destruct (UploadForm.analyze fetch (UploadForm.request_of f)) as [err|data].
    + do 3 eexists. split; [reflexivity|]. split; [reflexivity|]. now right.
    + do 3 eexists. split; [reflexivity|]. split; [reflexivity|]. now left.
  - left. split; [reflexivity|]. eexists. split; reflexivity.
Qed.

Lemma within_init (maxFileSize : N) : within maxFileSize App.init.
Proof. split; [discriminate | intros r []]. Qed.

Lemma within_step (maxFileSize : N) (ev : App.Event) (a : App.State) :
  within maxFileSize a -> within maxFileSize (App.step maxFileSize ev a).
Proof.
  intros [Hform Hsent]. destruct ev as [e | fetch b | id | raw]; cbn [App.step].
  - split; cbn [App.form App.sent]; [|exact Hsent].
    intros f Hf. now apply onFileChange_file in Hf.
  - destruct (onSubmit_cases (Page.addDocument b) fetch (App.form a) (App.page a))
      as [(Hnone & st' & -> & Hst') | (f & st' & page' & Hf & -> & Hst')].
    + split; cbn [App.form App.sent].
      * intros f Hf. congruence.
      * intros r Hr. rewrite app_nil_r in Hr. now apply Hsent.
    + split; cbn [App.form App.sent].
      * intros g Hg. destruct Hst' as [E|E]; rewrite E in Hg; [discriminate|].
        injection Hg as <-. now apply Hform.
      * intros r Hr. apply in_app_or in Hr as [Hr | [<- | []]].
        -- now apply Hsent.
        -- now apply Hform.
  - split; assumption.
  - split; assumption.
Qed.

Lemma within_run (maxFileSize : N) (evs : list App.Event) :
  within maxFileSize (App.run maxFileSize evs App.init).
Proof.
  induction evs as [|ev evs IH] using rev_ind.
  - apply within_init.
  - rewrite run_snoc. now apply within_step.
Qed.

(** C7: a file larger than the configured maximum is refused when it is
    picked: the form shows the size error and holds no file; submitting
    then sends nothing and leaves the page alone; and in no run of the
    application is a request ever sent that carries such a file. *)
Theorem oversized_file_never_sent (maxFileSize : N) (f : UploadForm.File) :
  (maxFileSize * 1024 * 1024 < UploadForm.size f)%N ->
  (forall e rest st,
      UploadForm.files e = Some (f :: rest) ->
      UploadForm.onFileChange maxFileSize e st
      = {| UploadForm.file := None;
           UploadForm.error := UploadForm.size_error maxFileSize;
           UploadForm.isLoading := UploadForm.isLoading st;
           UploadForm.input_value := "" |})
  /\ (forall e rest st fetch b page,
        UploadForm.files e = Some (f :: rest) ->
        exists st',
          UploadForm.onSubmit (Page.addDocument b) fetch
            (UploadForm.onFileChange maxFileSize e st) page
          = (st', page, []))
  /\ (forall evs,
        ~ In f (map UploadForm.body
                  (App.sent (App.run maxFileSize evs App.init)))).
Proof.
  intros Hbig.
  assert (R : forall e rest st,
             UploadForm.files e = Some (f :: rest) ->
             UploadForm.onFileChange maxFileSize e st
             = {| UploadForm.file := None;
                  UploadForm.error := UploadForm.size_error maxFileSize;
                  UploadForm.isLoading := UploadForm.isLoading st;
                  UploadForm.input_value := "" |}).
  { intros e rest st He. unfold UploadForm.onFileChange, UploadForm.first_file.
    rewrite He. cbv zeta.
    now rewrite (proj2 (N.ltb_lt _ _) Hbig). }
  split; [exact R|]. split.
  - intros e rest st fetch b page He. rewrite (R e rest st He).
    eexists. reflexivity.
  - intros evs Hin. apply in_map_iff in Hin as (r & <- & Hr).
    destruct (within_run maxFileSize evs) as [_ Hsent].
    specialize (Hsent r Hr). unfold limit in Hsent. lia.
Qed.

Lemma oversized_file_never_sent_witness :
  (App.maxFileSize * 1024 * 1024 < UploadForm.size big_file)%N
  /\ ~ In big_file
         (map UploadForm.body
            (App.sent
               (App.run App.maxFileSize
                  [App.FileChange {| UploadForm.files := Some [big_file];
                                     UploadForm.value := "C:\fakepath\scan.pdf" |};
                   App.Submit refuses later]
                  App.init))).
Proof.
  assert (H : (App.maxFileSize * 1024 * 1024 < UploadForm.size big_file)%N)
    by reflexivity.
  split; [exact H|].
  apply (oversized_file_never_sent App.maxFileSize big_file H).
Defined.

(** C10: the limit is [maxFileSize * 1024 * 1024] bytes and the test is
    strict: the picked file is kept iff its size is at most the limit, it
    is dropped iff its size is above it, and a file of exactly the limit is
    kept, with no error shown. *)
Theorem size_limit_inclusive (maxFileSize : N) (e : UploadForm.ChangeEvent)
    (f : UploadForm.File) (rest : list UploadForm.File) (st : UploadForm.State) :
  UploadForm.files e = Some (f :: rest) ->
  (UploadForm.file (UploadForm.onFileChange maxFileSize e st) = Some f
   <-> (UploadForm.size f <= maxFileSize * 1024 * 1024)%N)
  /\ (UploadForm.file (UploadForm.onFileChange maxFileSize e st) = None
      <-> (maxFileSize * 1024 * 1024 < UploadForm.size f)%N)
  /\ (UploadForm.size f = (maxFileSize * 1024 * 1024)%N ->
      UploadForm.onFileChange maxFileSize e st
      = {| UploadForm.file := Some f;
           UploadForm.error := "";
           UploadForm.isLoading := UploadForm.isLoading st;
           UploadForm.input_value := UploadForm.value e |}).
Proof.
  intros He. unfold UploadForm.onFileChange, UploadForm.first_file.
  rewrite He. cbv zeta.
  destruct (N.ltb_spec (maxFileSize * 1024 * 1024) (UploadForm.size f)) as [L|L];
    cbn [UploadForm.file].
  - split; [|split].
    + split; [discriminate | lia].
    + split; [intros _; exact L | reflexivity].
    + lia.
  - split; [|split].
    + split; [intros _; exact L | reflexivity].
    + split; [discriminate | lia].
    + reflexivity.
Qed.

(** A file of exactly 10 MB is accepted by the form as the page mounts it. *)
Lemma size_limit_inclusive_witness :
  UploadForm.files
    {| UploadForm.files :=
         Some [{| UploadForm.file_name := "scan.pdf"; UploadForm.size := 10485760 |}];
       UploadForm.value := "C:\fakepath\scan.pdf" |}
  = Some [{| UploadForm.file_name := "scan.pdf"; UploadForm.size := 10485760 |}]
  /\ UploadForm.onFileChange App.maxFileSize
       {| UploadForm.files :=
            Some [{| UploadForm.file_name := "scan.pdf"; UploadForm.size := 10485760 |}];
          UploadForm.value := "C:\fakepath\scan.pdf" |}
       UploadForm.init
     = {| UploadForm.file :=
            Some {| UploadForm.file_name := "scan.pdf"; UploadForm.size := 10485760 |};
          UploadForm.error := "";
          UploadForm.isLoading := false;
          UploadForm.input_value := "C:\fakepath\scan.pdf" |}.
Proof.
  split; [reflexivity|].
  apply (size_limit_inclusive App.maxFileSize
           {| UploadForm.files :=
                Some [{| UploadForm.file_name := "scan.pdf"; UploadForm.size := 10485760 |}];
              UploadForm.value := "C:\fakepath\scan.pdf" |}
           {| UploadForm.file_name := "scan.pdf"; UploadForm.size := 10485760 |}
           [] UploadForm.init eq_refl).
  reflexivity.
Defined.


(** * Further properties of the components *)

(** ** Lists and strings *)

Lemma filter_comm {A} (f g : A -> bool) (l : list A) :
  List.filter f (List.filter g l) = List.filter g (List.filter f l).
Proof.
  induction l as [|x l IH]; [reflexivity|]. cbn [List.filter].
  destruct (f x) eqn:F, (g x) eqn:G; cbn [List.filter];
    rewrite ?F, ?G, IH; reflexivity.
Qed.

Lemma filter_idem {A} (f : A -> bool) (l : list A) :
  List.filter f (List.filter f l) = List.filter f l.
Proof.
  apply filter_all. intros x Hx. now apply filter_In in Hx.
Qed.

Lemma filter_sublist_impl {A} (f g : A -> bool) (l : list A) :
  (forall x, In x l -> f x = true -> g x = true) ->
  sublist (List.filter f l) (List.filter g l).
Proof.
  induction l as [|x l IH]; intros H; cbn [List.filter]; [constructor|].
  assert (IH' : sublist (List.filter f l) (List.filter g l)).
  { apply IH. intros y Hy. apply H. now right. }
  destruct (f x) eqn:F.
  - rewrite (H x (or_introl eq_refl) F). now constructor.
  - destruct (g x); [now constructor | exact IH'].
Qed.


Lemma Contains_trans (s t u : string) :
  Contains s t -> Contains t u -> Contains s u.
Proof.
  intros (p1 & q1 & ->) (p2 & q2 & ->).
  exists (p1 ++ p2), (q2 ++ q1). now rewrite !append_assoc.
Qed.




Lemma truthy_lower (s : string) : JS.truthy (JS.toLowerCase s) = JS.truthy s.
Proof. destruct s; reflexivity. Qed.



(** *** [trim] *)

















(** ** The store, further *)

Lemma keep_lower_eq (q1 q2 : FilterValues.t) (d : Doc.t) :
  JS.toLowerCase (FilterValues.search q1) = JS.toLowerCase (FilterValues.search q2) ->
  JS.toLowerCase (FilterValues.type q1) = JS.toLowerCase (FilterValues.type q2) ->
  Page.keep q1 d = Page.keep q2 d.
Proof.
  intros Hs Ht. unfold Page.keep. cbv zeta.
  rewrite <- (truthy_lower (FilterValues.search q1)),
          <- (truthy_lower (FilterValues.type q1)), Hs, Ht, !truthy_lower.
  reflexivity.
Qed.

(** X1: in a reachable state, inserting a document changes the filtered
    view only at its head: the new document is put in front of the view
    when it passes the current filters, and the view is left as it was
    when it does not. *)
Theorem insert_view_incremental (b : Browser) (a : Analyzed.t) (st : Page.State) :
  reachable st ->
  Page.filtered (Page.addDocument b a st)
  = if Page.keep (Page.filters st) (Page.newDoc b a)
    then Page.newDoc b a :: Page.filtered st
    else Page.filtered st.
Proof.
  intros R. rewrite (reachable_in_sync st R).
  cbn [Page.addDocument Page.applyFilters Page.filtered Page.documents
         Page.filters List.filter].
  reflexivity.
Qed.

Lemma insert_view_incremental_witness :
  reachable (setFilter {| Filters.search := ""; Filters.type := "fattura" |} two_docs)
  /\ map Doc.name
       (Page.filtered
          (Page.addDocument later notes
             (setFilter {| Filters.search := ""; Filters.type := "fattura" |} two_docs)))
     = ["Invoice A"].
Proof.
  assert (R : reachable
                (setFilter {| Filters.search := ""; Filters.type := "fattura" |} two_docs))
    by do 4 constructor.
  split; [exact R|].
  rewrite (insert_view_incremental later notes _ R). reflexivity.
Defined.

(** X2: removing a card.  When the dialog is declined nothing changes.
    When it is confirmed, in a reachable state, the filtered view is the
    old view without the documents carrying the id of the card, the others
    staying in their order; the card itself is gone from the view and from
    the collection. *)
Theorem card_remove_view (confirm : bool) (d : Doc.t) (c : DocumentCard.State)
    (st : Page.State) :
  reachable st ->
  (confirm = false ->
   DocumentCard.remove confirm Page.deleteDocument d c st = (c, st))
  /\ (confirm = true ->
      Page.filtered (snd (DocumentCard.remove confirm Page.deleteDocument d c st))
      = filter (fun x => Doc.id x <> Doc.id d) (Page.filtered st)
      /\ ~ In d (Page.filtered
                   (snd (DocumentCard.remove confirm Page.deleteDocument d c st)))
      /\ ~ In d (Page.documents
                   (snd (DocumentCard.remove confirm Page.deleteDocument d c st)))).
Proof.
  intros R. split; intros ->; [reflexivity|].
  cbn [DocumentCard.remove snd].
  assert (E : Page.filtered (Page.deleteDocument (Doc.id d) st)
              = List.filter (fun x => negb (String.eqb (Doc.id x) (Doc.id d)))
                  (Page.filtered st)).
  { rewrite (reachable_in_sync st R).
    cbn [Page.deleteDocument Page.applyFilters Page.filtered Page.documents
           Page.filters].
    apply filter_comm. }
  split; [|split].
  - rewrite E. apply delete_filter.
  - rewrite E, filter_In, String.eqb_refl. now intros [_ H].
  - cbn [Page.deleteDocument Page.applyFilters Page.documents].
    rewrite filter_In, String.eqb_refl. now intros [_ H].
Qed.

Lemma card_remove_view_witness :
  reachable two_docs
  /\ map Doc.name
       (Page.filtered
          (snd (DocumentCard.remove true Page.deleteDocument
                  (Page.newDoc readings invoice_a)
                  {| DocumentCard.isProcessing := false; DocumentCard.error := "" |}
                  two_docs)))
     = ["Contract B"].
Proof.
  assert (R : reachable two_docs) by do 3 constructor.
  split; [exact R|].
  rewrite (proj1 (proj2 (card_remove_view true (Page.newDoc readings invoice_a)
                           {| DocumentCard.isProcessing := false;
                              DocumentCard.error := "" |}
                           two_docs R) eq_refl)).
  reflexivity.
Defined.

(** X3: the filtered view does not depend on the case of the query: two
    pairs of inputs that agree, once trimmed, up to case give the same
    view. *)
Theorem query_case_insensitive (raw1 raw2 : Filters.State) (st : Page.State) :
  JS.toLowerCase (JS.trim (Filters.search raw1))
  = JS.toLowerCase (JS.trim (Filters.search raw2)) ->
  JS.toLowerCase (JS.trim (Filters.type raw1))
  = JS.toLowerCase (JS.trim (Filters.type raw2)) ->
  Page.filtered (setFilter raw1 st) = Page.filtered (setFilter raw2 st).
Proof.
  intros Hs Ht. rewrite !setFilter_filtered.
  apply List.filter_ext. intros d. now apply keep_lower_eq.
Qed.

Lemma query_case_insensitive_witness :
  JS.toLowerCase (JS.trim " INVOICE") = JS.toLowerCase (JS.trim "invoice ")
  /\ JS.toLowerCase (JS.trim "FATTURA") = JS.toLowerCase (JS.trim "Fattura")
  /\ Page.filtered
       (setFilter {| Filters.search := " INVOICE"; Filters.type := "FATTURA" |} two_docs)
     = Page.filtered
         (setFilter {| Filters.search := "invoice "; Filters.type := "Fattura" |} two_docs).
Proof.
  split; [reflexivity|]. split; [reflexivity|].
  apply (query_case_insensitive
           {| Filters.search := " INVOICE"; Filters.type := "FATTURA" |}
           {| Filters.search := "invoice "; Filters.type := "Fattura" |}
           two_docs); reflexivity.
Defined.

(** X4: refining the search narrows the view: when the (trimmed, lowered)
    term of one search occurs in the term of another, with the same type
    input, the view of the longer term is a sublist of the view of the
    shorter one. *)
Theorem search_refinement_narrows (s1 s2 ty : string) (st : Page.State) :
  Contains (JS.toLowerCase (JS.trim s2)) (JS.toLowerCase (JS.trim s1)) ->
  sublist
    (Page.filtered (setFilter {| Filters.search := s2; Filters.type := ty |} st))
    (Page.filtered (setFilter {| Filters.search := s1; Filters.type := ty |} st)).
Proof.
  intros H. rewrite !setFilter_filtered. apply filter_sublist_impl.
  intros d _ K. apply keep_search_type in K as [K1 K2].
  apply keep_search_type. split; [|exact K2].
  unfold passes_search in *. cbn [query FilterValues.search Filters.search] in *.
  eapply Contains_trans; [exact K1 | exact H].
Qed.

Lemma search_refinement_narrows_witness :
  Contains (JS.toLowerCase (JS.trim "Invoice A")) (JS.toLowerCase (JS.trim "inv"))
  /\ sublist
       (Page.filtered
          (setFilter {| Filters.search := "Invoice A"; Filters.type := "" |} two_docs))
       (Page.filtered
          (setFilter {| Filters.search := "inv"; Filters.type := "" |} two_docs)).
Proof.
  assert (H : Contains (JS.toLowerCase (JS.trim "Invoice A"))
                (JS.toLowerCase (JS.trim "inv"))).
  { exists "", "oice a". reflexivity. }
  split; [exact H|].
  apply (search_refinement_narrows "inv" "Invoice A" "" two_docs H).
Defined.







(** X7: deletions commute, and deleting an id twice is deleting it once. *)
Theorem delete_commutes (i j : string) (st : Page.State) :
  Page.deleteDocument i (Page.deleteDocument j st)
  = Page.deleteDocument j (Page.deleteDocument i st)
  /\ Page.deleteDocument i (Page.deleteDocument i st) = Page.deleteDocument i st.
Proof.
  unfold Page.deleteDocument, Page.applyFilters.
  cbn [Page.documents Page.filtered Page.filters Page.loadingError Page.isLoading].
  split.
  - now rewrite (filter_comm (fun d => negb (String.eqb (Doc.id d) i))).
  - now rewrite filter_idem.
Qed.

(** X8: the size of the collection, which the footer shows: an insertion
    adds one; a deletion takes away as many documents as carry the id. *)
Theorem collection_size (b : Browser) (a : Analyzed.t) (id : string) (st : Page.State) :
  length (Page.documents (Page.addDocument b a st)) = S (length (Page.documents st))
  /\ length (Page.documents (Page.deleteDocument id st))
     + count_occ string_dec (map Doc.id (Page.documents st)) id
     = length (Page.documents st).
Proof.
  split; [reflexivity|].
  cbn [Page.deleteDocument Page.applyFilters Page.documents].
  induction (Page.documents st) as [|d docs IH]; [reflexivity|].
  cbn [List.filter map count_occ length].
  destruct (string_dec (Doc.id d) id) as [E|E].
  - rewrite (proj2 (String.eqb_eq _ _) E). cbn [negb]. lia.
  - rewrite (proj2 (String.eqb_neq _ _) E). cbn [negb length]. lia.
Qed.

(** ** The list and the cards *)




(** X10: the cards shown and the hidden count add up to the number of
    documents; the cards shown are the first documents, in order; nothing
    is hidden exactly when every document is shown, which is the case for
    any limit of 0 or less. *)
Theorem displayed_plus_hidden (p : DocumentList.Props) :
  (Z.of_nat (length (DocumentList.displayedDocuments p)) + DocumentList.hiddenCount p
   = Z.of_nat (length (DocumentList.documents p)))%Z
  /\ DocumentList.displayedDocuments p `prefix_of` DocumentList.documents p
  /\ (DocumentList.hiddenCount p = 0%Z
      <-> DocumentList.displayedDocuments p = DocumentList.documents p)
  /\ ((DocumentList.limit p <= 0)%Z ->
      DocumentList.displayedDocuments p = DocumentList.documents p).
Proof.
  unfold DocumentList.displayedDocuments, DocumentList.hiddenCount.
  destruct p as [docs il er ro lim]; cbn [DocumentList.documents DocumentList.limit].
  destruct (Z.ltb_spec 0 lim) as [Hpos|Hnp]; cbn [andb].
  - assert (Hpre : firstn (Z.to_nat lim) docs `prefix_of` docs).
    { exists (skipn (Z.to_nat lim) docs). symmetry. apply firstn_skipn. }
    destruct (Z.ltb_spec lim (Z.of_nat (length docs))) as [Hlt|Hge].
    + rewrite length_firstn. repeat split; try lia; try exact Hpre.
      * intros E. apply (f_equal (@length _)) in E. rewrite length_firstn in E. lia.
    + rewrite firstn_all2 by lia. repeat split; try lia; try reflexivity.
  - repeat split; try lia; reflexivity.
Qed.

Example displayed_plus_hidden_ex :
  map Doc.id (DocumentList.displayedDocuments five_cards) = ["1-0.5"; "2-0.5"; "3-0.5"]
  /\ DocumentList.hiddenCount five_cards = 2%Z.
Proof. split; reflexivity. Qed.

Lemma type_view_iff (st : Page.State) (d : Doc.t) (ty : string) :
  JS.trim ty <> "" ->
  In d (Page.filtered
          (setFilter {| Filters.search := ""; Filters.type := ty |} st))
  <-> In d (Page.documents st)
      /\ exists t0, tipo_documento (Doc.extracted_data d) = Some t0
                    /\ JS.toLowerCase t0 = JS.toLowerCase (JS.trim ty).
Proof.
  intros Hty. rewrite in_filtered. unfold passes_type.
  cbn [query FilterValues.type Filters.type]. split.
  - intros (Hd & _ & [H | H]); [contradiction | now split].
  - intros (Hd & H). split; [exact Hd|]. split; [apply passes_search_nil | now right].
Qed.

Lemma icon_cases (d : Doc.t) :
  (DocumentCard.icon d = DocumentCard.Receipt
   <-> exists t0, tipo_documento (Doc.extracted_data d) = Some t0
                  /\ JS.toLowerCase t0 = "fattura")
  /\ (DocumentCard.icon d = DocumentCard.Signature
      <-> exists t0, tipo_documento (Doc.extracted_data d) = Some t0
                     /\ JS.toLowerCase t0 = "contratto").
Proof.
  unfold DocumentCard.icon.
  destruct (tipo_documento (Doc.extracted_data d)) as [ty|].
  - destruct (String.eqb_spec (JS.toLowerCase ty) "fattura") as [E1|E1];
      [|destruct (String.eqb_spec (JS.toLowerCase ty) "contratto") as [E2|E2]].
    + split; split.
      * intros _. now exists ty.
      * reflexivity.
      * discriminate.
      * intros (t0 & [= <-] & H). rewrite E1 in H. discriminate.
    + split; split.
      * discriminate.
      * intros (t0 & [= <-] & H). contradiction.
      * intros _. now exists ty.
      * reflexivity.
    + split; split.
      * discriminate.
      * intros (t0 & [= <-] & H). contradiction.
      * discriminate.
      * intros (t0 & [= <-] & H). contradiction.
  - split; split; try discriminate; intros (t0 & [=] & _).
Qed.

(** X11: the icon of a card agrees with the type filter: a document of the
    collection carries the receipt icon exactly when the type filter
    ["fattura"] keeps it, and the signature icon exactly when the filter
    ["contratto"] does. *)
Theorem icon_agrees_with_type_filter (st : Page.State) (d : Doc.t) :
  In d (Page.documents st) ->
  (DocumentCard.icon d = DocumentCard.Receipt
   <-> In d (Page.filtered
               (setFilter {| Filters.search := ""; Filters.type := "fattura" |} st)))
  /\ (DocumentCard.icon d = DocumentCard.Signature
      <-> In d (Page.filtered
                  (setFilter {| Filters.search := ""; Filters.type := "contratto" |} st))).
Proof.
  intros Hd. destruct (icon_cases d) as [I1 I2].
  rewrite I1, I2, !type_view_iff by discriminate.
  change (JS.toLowerCase (JS.trim "fattura")) with "fattura".
  change (JS.toLowerCase (JS.trim "contratto")) with "contratto".
  tauto.
Qed.

Lemma icon_agrees_with_type_filter_witness :
  In (Page.newDoc readings invoice_a) (Page.documents two_docs)
  /\ DocumentCard.icon (Page.newDoc readings invoice_a) = DocumentCard.Receipt
  /\ In (Page.newDoc readings invoice_a)
       (Page.filtered
          (setFilter {| Filters.search := ""; Filters.type := "fattura" |} two_docs)).
Proof.
  assert (H : In (Page.newDoc readings invoice_a) (Page.documents two_docs))
    by (right; left; reflexivity).
  split; [exact H|]. split; [reflexivity|].
  apply (proj1 (icon_agrees_with_type_filter two_docs
                  (Page.newDoc readings invoice_a) H)).
  reflexivity.
Defined.

Lemma join_truthy_nonempty (sep : string) (l : list (option string)) :
  JS.join sep (List.filter DocumentCard.truthy_opt l) = ""
  <-> List.filter DocumentCard.truthy_opt l = [].
Proof.
  split; [|now intros ->].
  destruct (List.filter DocumentCard.truthy_opt l) as [|x rest] eqn:E;
    [reflexivity|].
  assert (T : DocumentCard.truthy_opt x = true).
  { assert (I : In x (List.filter DocumentCard.truthy_opt l))
      by (rewrite E; now left).
    now apply filter_In in I. }
  destruct x as [s|]; [|discriminate]. cbn in T. apply truthy_spec in T.
  destruct s as [|c s]; [contradiction|].
  destruct rest; cbn; discriminate.
Qed.

(** X12: the metadata line of a card is empty, and so not rendered,
    exactly when the document has no type text, no text of parties and no
    formatted date; whatever the locale formatting gives. *)
Theorem metadata_line_empty (toLocaleDateString : string -> string) (d : Doc.t) :
  DocumentCard.metadataInfo toLocaleDateString d = ""
  <-> JS.elem_text (tipo_documento (Doc.extracted_data d)) = ""
      /\ JS.join ", " (map Some (JS.arr_or (soggetti_coinvolti (Doc.extracted_data d)) []))
         = ""
      /\ DocumentCard.truthy_opt (DocumentCard.formattedDate toLocaleDateString d)
         = false.
Proof.
  unfold DocumentCard.metadataInfo. cbv zeta. rewrite join_truthy_nonempty.
  cbn [List.filter].
  set (ty := tipo_documento (Doc.extracted_data d)).
  set (parties := JS.join ", " _).
  set (date := DocumentCard.formattedDate _ _).
  assert (Hty : DocumentCard.truthy_opt ty = false <-> JS.elem_text ty = "").
  { destruct ty as [s|]; cbn; [apply truthy_false | tauto]. }
  assert (Hp : DocumentCard.truthy_opt (Some parties) = false <-> parties = "")
    by apply truthy_false.
  destruct (DocumentCard.truthy_opt ty), (DocumentCard.truthy_opt (Some parties)),
    (DocumentCard.truthy_opt date); split; try discriminate;
    try (intros _; repeat split; tauto);
    intros (H1 & H2 & H3); try discriminate;
    try (apply Hty in H1; discriminate); try (apply Hp in H2; discriminate).
Qed.

Lemma displayed_plus_hidden_witness :
  (DocumentList.limit (mounted_list two_docs) <= 0)%Z
  /\ DocumentList.displayedDocuments (mounted_list two_docs)
     = DocumentList.documents (mounted_list two_docs).
Proof.
  assert (H : (DocumentList.limit (mounted_list two_docs) <= 0)%Z) by (cbn; lia).
  split; [exact H|].
  exact (proj2 (proj2 (proj2 (displayed_plus_hidden (mounted_list two_docs)))) H).
Defined.

(** ** The filter bar *)

Lemma no_active_query (raw : Filters.State) :
  FilterBar.hasActiveFilters raw = false
  <-> JS.trim (Filters.search raw) = "" /\ JS.trim (Filters.type raw) = "".
Proof.
  unfold FilterBar.hasActiveFilters.
  rewrite orb_false_iff, !negb_false_iff, !String.eqb_eq. reflexivity.
Qed.

Lemma empty_query_keeps_all (q : FilterValues.t) (docs : list Doc.t) :
  FilterValues.search q = "" -> FilterValues.type q = "" ->
  List.filter (Page.keep q) docs = docs.
Proof.
  intros Hs Ht. apply filter_all. intros d _. apply keep_search_type. split.
  - unfold passes_search. rewrite Hs. apply Contains_nil.
  - now left.
Qed.

(** X13: the bar counts its active filters on the trimmed inputs: it
    shows some as active exactly when the count is not 0, the count is at
    most 2, and when none is active (inputs empty or made of white space
    only) applying the inputs shows every document. *)
Theorem no_active_filter_shows_all (raw : Filters.State) (st : Page.State) :
  (FilterBar.hasActiveFilters raw = true <-> 0 < FilterBar.activeFiltersCount raw)
  /\ FilterBar.activeFiltersCount raw <= 2
  /\ (FilterBar.hasActiveFilters raw = false ->
      Page.filtered (setFilter raw st) = Page.documents st).
Proof.
  split; [|split].
  - unfold FilterBar.hasActiveFilters, FilterBar.activeFiltersCount.
    destruct (negb (String.eqb (JS.trim (Filters.search raw)) "")),
      (negb (String.eqb (JS.trim (Filters.type raw)) "")); cbn; split;
      (reflexivity || discriminate || lia).
  - unfold FilterBar.activeFiltersCount.
    destruct (negb (String.eqb (JS.trim (Filters.search raw)) "")),
      (negb (String.eqb (JS.trim (Filters.type raw)) "")); cbn; lia.
  - intros H. apply no_active_query in H as [Hs Ht].
    rewrite setFilter_filtered. now apply empty_query_keeps_all.
Qed.

Lemma no_active_filter_shows_all_witness :
  FilterBar.hasActiveFilters {| Filters.search := "   "; Filters.type := " " |} = false
  /\ Page.filtered
       (setFilter {| Filters.search := "   "; Filters.type := " " |} two_docs)
     = Page.documents two_docs.
Proof.
  split; [reflexivity|].
  apply (proj2 (proj2 (no_active_filter_shows_all
                         {| Filters.search := "   "; Filters.type := " " |}
                         two_docs))).
  reflexivity.
Defined.

Lemma bar_run_snoc (evs : list BarEvent) (ev : BarEvent)
    (s : FilterBar.State * Page.State) :
  bar_run (evs ++ [ev]) s = bar_step ev (bar_run evs s).
Proof. unfold bar_run. now rewrite fold_left_app. Qed.

Lemma bar_in_sync_init : bar_in_sync (FilterBar.init, Page.init).
Proof.
  split; cbn.
  - intros id H. set_solver.
  - reflexivity.
Qed.

Lemma bar_in_sync_step (ev : BarEvent) (s : FilterBar.State * Page.State) :
  bar_in_sync s -> bar_in_sync (bar_step ev s).
Proof.
  destruct s as [[inp tm [nx lv]] page]. unfold bar_in_sync.
  cbn [fst snd FilterBar.timers FilterBar.live FilterBar.debounceTimer
         FilterBar.inputs].
  intros [Hone Hsync].
  destruct ev as [[v | v | id | | | ] | b a | id];
    cbn [bar_step FilterBar.step fst snd].
  - (* SearchInput *)
    unfold FilterBar.handleSearchInput, FilterBar.setTimeout, FilterBar.clearTimeout.
    destruct tm as [old|];
      cbn [fst snd FilterBar.timers FilterBar.live FilterBar.debounceTimer
             FilterBar.inputs FilterBar.next].
    + split.
      * intros id Hid. apply elem_of_union in Hid as [Hid | Hid].
        -- apply elem_of_singleton in Hid. now subst.
        -- apply elem_of_difference in Hid as [Hid Hne].
           apply Hone in Hid. injection Hid as ->. set_solver.
      * intros He. exfalso. set_solver.
    + split.
      * intros id Hid. apply elem_of_union in Hid as [Hid | Hid].
        -- apply elem_of_singleton in Hid. now subst.
        -- apply Hone in Hid. discriminate.
      * intros He. exfalso. set_solver.
  - (* TypeInput *)
    cbn [fst snd FilterBar.timers FilterBar.live FilterBar.debounceTimer
           FilterBar.inputs].
    split; [exact Hone | reflexivity].
  - (* Fire *)
    case_bool_decide as Hlive;
      cbn [fst snd FilterBar.timers FilterBar.live FilterBar.debounceTimer
             FilterBar.inputs].
    + split; [|reflexivity].
      intros i Hi. apply elem_of_difference in Hi as [Hi _]. now apply Hone.
    + split; assumption.
  - (* Reset *)
    unfold FilterBar.resetFilters, FilterBar.clearTimeout.
    destruct tm as [old|];
      cbn [fst snd FilterBar.timers FilterBar.live FilterBar.debounceTimer
             FilterBar.inputs FilterBar.next Filters.resetFilters].
    + split; [|reflexivity].
      intros i Hi. apply elem_of_difference in Hi as [Hi Hne].
      apply Hone in Hi. injection Hi as ->. set_solver.
    + split; [exact Hone | reflexivity].
  - (* ClearSearch *)
    cbn [fst snd FilterBar.timers FilterBar.live FilterBar.debounceTimer
           FilterBar.inputs].
    split; [exact Hone | reflexivity].
  - (* ClearType *)
    cbn [fst snd FilterBar.timers FilterBar.live FilterBar.debounceTimer
           FilterBar.inputs].
    split; [exact Hone | reflexivity].
  - split; [exact Hone | exact Hsync].
  - split; [exact Hone | exact Hsync].
Qed.

Lemma bar_in_sync_run (evs : list BarEvent) :
  bar_in_sync (bar_run evs (FilterBar.init, Page.init)).
Proof.
  induction evs as [|ev evs IH] using rev_ind.
  - apply bar_in_sync_init.
  - rewrite bar_run_snoc. now apply bar_in_sync_step.
Qed.

Lemma bar_run_reachable (evs : list BarEvent) :
  reachable (snd (bar_run evs (FilterBar.init, Page.init))).
Proof.
  induction evs as [|ev evs IH] using rev_ind; [constructor|].
  rewrite bar_run_snoc.
  destruct (bar_run evs (FilterBar.init, Page.init)) as [bar page].
  cbn [snd] in IH.
  destruct ev as [[v | v | id | | | ] | b a | id];
    cbn [bar_step FilterBar.step fst snd].
  - exact IH.
  - exact (reachable_filter _ _ IH).
  - case_bool_decide; [exact (reachable_filter _ _ IH) | exact IH].
  - unfold FilterBar.resetFilters.
    destruct (FilterBar.debounceTimer bar); cbn; exact (reachable_filter _ _ IH).
  - exact (reachable_filter _ _ IH).
  - exact (reachable_filter _ _ IH).
  - now constructor.
  - now constructor.
Qed.

(** X14: the debounce.  After any sequence of inputs, timeouts, resets,
    chip clicks, insertions and deletions, at most one timer is live, and
    it is the one the bar remembers: a new search input supersedes the
    pending one.  When no timer is live, the filtered view is the one of
    the current inputs: the view is stale only while a timer is pending. *)
Theorem debounce_keeps_view_in_sync (evs : list BarEvent) :
  (forall id,
      id ∈ FilterBar.live (FilterBar.timers (fst (bar_run evs (FilterBar.init, Page.init)))) ->
      FilterBar.debounceTimer (fst (bar_run evs (FilterBar.init, Page.init))) = Some id)
  /\ size (FilterBar.live (FilterBar.timers (fst (bar_run evs (FilterBar.init, Page.init)))))
     <= 1
  /\ (FilterBar.live (FilterBar.timers (fst (bar_run evs (FilterBar.init, Page.init)))) = ∅ ->
      Page.filtered (snd (bar_run evs (FilterBar.init, Page.init)))
      = Page.filtered
          (setFilter (FilterBar.inputs (fst (bar_run evs (FilterBar.init, Page.init))))
             (snd (bar_run evs (FilterBar.init, Page.init))))).
Proof.
  destruct (bar_in_sync_run evs) as [Hone Hsync].
  pose proof (bar_run_reachable evs) as R.
  set (s := bar_run evs (FilterBar.init, Page.init)) in *.
  split; [exact Hone|]. split.
  - destruct (FilterBar.debounceTimer (fst s)) as [old|] eqn:E.
    + assert (Hsub : FilterBar.live (FilterBar.timers (fst s)) ⊆ {[ old ]}).
      { intros i Hi. apply Hone in Hi. injection Hi as ->. set_solver. }
      apply subseteq_size in Hsub. now rewrite size_singleton in Hsub.
    + assert (He : FilterBar.live (FilterBar.timers (fst s)) = ∅).
      { apply set_eq. intros i. split; [|set_solver].
        intros Hi. apply Hone in Hi. discriminate. }
      rewrite He, size_empty. lia.
  - intros He. rewrite (reachable_in_sync _ R), (Hsync He). reflexivity.
Qed.

Lemma debounce_keeps_view_in_sync_witness :
  FilterBar.live
    (FilterBar.timers
       (fst (bar_run [Insert readings invoice_a;
                      OfBar (FilterBar.SearchInput "con");
                      OfBar (FilterBar.SearchInput "contract");
                      OfBar (FilterBar.Fire 1);
                      OfBar (FilterBar.Fire 2)]
               (FilterBar.init, Page.init)))) = ∅
  /\ Page.filtered
       (snd (bar_run [Insert readings invoice_a;
                      OfBar (FilterBar.SearchInput "con");
                      OfBar (FilterBar.SearchInput "contract");
                      OfBar (FilterBar.Fire 1);
                      OfBar (FilterBar.Fire 2)]
               (FilterBar.init, Page.init)))
     = Page.filtered
         (setFilter {| Filters.search := "contract"; Filters.type := "" |}
            (Page.addDocument readings invoice_a Page.init)).
Proof.
  assert (H : FilterBar.live
                (FilterBar.timers
                   (fst (bar_run [Insert readings invoice_a;
                                  OfBar (FilterBar.SearchInput "con");
                                  OfBar (FilterBar.SearchInput "contract");
                                  OfBar (FilterBar.Fire 1);
                                  OfBar (FilterBar.Fire 2)]
                           (FilterBar.init, Page.init)))) = ∅)
    by (apply set_eq; intros i; vm_compute; set_solver).
  split; [exact H|].
  rewrite (proj2 (proj2 (debounce_keeps_view_in_sync _)) H).
  reflexivity.
Defined.

(** X15: reset.  From any state the bar and the store reach together,
    [resetFilters] leaves no timer live (a pending search is cancelled),
    empties both inputs, so that no filter shows as active, and makes the
    view the whole collection. *)
Theorem reset_shows_all (evs : list BarEvent) :
  FilterBar.live
    (FilterBar.timers
       (fst (bar_step (OfBar FilterBar.Reset) (bar_run evs (FilterBar.init, Page.init)))))
  = ∅
  /\ FilterBar.hasActiveFilters
       (FilterBar.inputs
          (fst (bar_step (OfBar FilterBar.Reset)
                  (bar_run evs (FilterBar.init, Page.init)))))
     = false
  /\ Page.filtered
       (snd (bar_step (OfBar FilterBar.Reset) (bar_run evs (FilterBar.init, Page.init))))
     = Page.documents (snd (bar_run evs (FilterBar.init, Page.init))).
Proof.
  destruct (bar_in_sync_run evs) as [Hone _].
  destruct (bar_run evs (FilterBar.init, Page.init)) as [[inp tm [nx lv]] page].
  cbn [fst snd FilterBar.timers FilterBar.live FilterBar.debounceTimer] in Hone.
  cbn [bar_step FilterBar.step]. unfold FilterBar.resetFilters, FilterBar.clearTimeout.
  destruct tm as [old|];
    cbn [fst snd FilterBar.timers FilterBar.live FilterBar.debounceTimer
           FilterBar.inputs FilterBar.next Filters.resetFilters].
  - split; [|split].
    + apply set_eq. intros i. split; [|set_solver].
      intros Hi. apply elem_of_difference in Hi as [Hi Hne].
      apply Hone in Hi. injection Hi as ->. set_solver.
    + reflexivity.
    + now apply empty_query_keeps_all.
  - split; [|split].
    + apply set_eq. intros i. split; [|set_solver].
      intros Hi. apply Hone in Hi. discriminate.
    + reflexivity.
    + now apply empty_query_keeps_all.
Qed.

(** ** The upload form, further *)

Lemma analyze_ok (fetch : UploadForm.Request -> UploadForm.Try UploadForm.Response)
    (r : UploadForm.Request) (data : Analyzed.t) :
  UploadForm.analyze fetch r = inr data <-> fetch r = inr (UploadForm.Ok (inr data)).
Proof.
  unfold UploadForm.analyze, UploadForm.bind, UploadForm.throw.
  destruct (fetch r) as [exn | [status json | [exn | a]]]; split;
    try discriminate; congruence.
Qed.


(** X16: a successful upload.  When the form holds a file and the backend
    answers 2xx with a body that parses, [onSubmit] sends one request,
    hands the answer to [addDocument], which puts the new document in
    front of the collection, and resets the form; submitting again at
    once sends nothing more, adds nothing, and asks for a file. *)
Theorem successful_upload (maxFileSize : N) (b b' : Browser)
    (fetch fetch' : UploadForm.Request -> UploadForm.Try UploadForm.Response)
    (f : UploadForm.File) (data : Analyzed.t) (a : App.State) :
  UploadForm.file (App.form a) = Some f ->
  fetch (UploadForm.request_of f) = inr (UploadForm.Ok (inr data)) ->
  App.step maxFileSize (App.Submit fetch b) a
  = {| App.page := Page.addDocument b data (App.page a);
       App.form := {| UploadForm.file := None; UploadForm.error := "";
                      UploadForm.isLoading := false;
                      UploadForm.input_value := "" |};
       App.sent := (App.sent a ++ [UploadForm.request_of f])%list |}
  /\ App.step maxFileSize (App.Submit fetch' b')
       (App.step maxFileSize (App.Submit fetch b) a)
     = {| App.page := Page.addDocument b data (App.page a);
          App.form := {| UploadForm.file := None;
                         UploadForm.error := "Seleziona un file da caricare";
                         UploadForm.isLoading := false;
                         UploadForm.input_value := "" |};
          App.sent := (App.sent a ++ [UploadForm.request_of f])%list |}.
Proof.
  intros Hf Hok. apply analyze_ok in Hok.
  assert (E : App.step maxFileSize (App.Submit fetch b) a
              = {| App.page := Page.addDocument b data (App.page a);
                   App.form := {| UploadForm.file := None; UploadForm.error := "";
                                  UploadForm.isLoading := false;
                                  UploadForm.input_value := "" |};
                   App.sent := (App.sent a ++ [UploadForm.request_of f])%list |}).
  { unfold App.step, UploadForm.onSubmit. rewrite Hf. cbv zeta. now rewrite Hok. }
  split; [exact E|].
  rewrite E. unfold App.step, UploadForm.onSubmit.
  cbn [App.form App.page App.sent UploadForm.file UploadForm.isLoading
         UploadForm.input_value].
  now rewrite app_nil_r.
Qed.

Lemma successful_upload_witness :
  UploadForm.file (App.form picked) = Some small_file
  /\ accepts (UploadForm.request_of small_file) = inr (UploadForm.Ok (inr invoice_a))
  /\ map Doc.name
       (Page.documents (App.page (App.step App.maxFileSize (App.Submit accepts later) picked)))
     = ["Invoice A"; "Contract B"; "Invoice A"].
Proof.
  split; [reflexivity|]. split; [reflexivity|].
  rewrite (proj1 (successful_upload App.maxFileSize later later accepts accepts
                    small_file invoice_a picked eq_refl eq_refl)).
  reflexivity.
Defined.

(** X17: whatever a non-2xx answer carries, the form ends with a
    non-empty error, so that the error banner is rendered: the server's
    text, or the status line when the text is missing or empty, or the
    fixed text when the body does not parse. *)
Theorem not_ok_always_reported (maxFileSize : N) (b : Browser)
    (fetch : UploadForm.Request -> UploadForm.Try UploadForm.Response)
    (f : UploadForm.File) (status : N)
    (json : UploadForm.Try UploadForm.ErrorData) (a : App.State) :
  UploadForm.file (App.form a) = Some f ->
  fetch (UploadForm.request_of f) = inr (UploadForm.NotOk status json) ->
  JS.truthy
    (UploadForm.error (App.form (App.step maxFileSize (App.Submit fetch b) a)))
  = true
  /\ App.page (App.step maxFileSize (App.Submit fetch b) a) = App.page a.
Proof.
  intros Hf Hfetch.
  unfold App.step, UploadForm.onSubmit. rewrite Hf. cbv zeta.
  unfold UploadForm.analyze, UploadForm.bind, UploadForm.throw, UploadForm.catch.
  rewrite Hfetch. cbn [App.form App.page UploadForm.error].
  split; [|reflexivity].
  destruct json as [exn | [e]]; [reflexivity|]. cbn [UploadForm.error_message].
  destruct (str_or_cases e ("Errore HTTP " ++ JS.number_text status))
    as [(e0 & _ & Hne & ->) | (_ & ->)].
  - now apply truthy_spec.
  - reflexivity.
Qed.

Lemma not_ok_always_reported_witness :
  UploadForm.file (App.form picked) = Some small_file
  /\ not_found (UploadForm.request_of small_file)
     = inr (UploadForm.NotOk 404 (inr {| UploadForm.error_message := None |}))
  /\ JS.truthy
       (UploadForm.error
          (App.form (App.step App.maxFileSize (App.Submit not_found later) picked)))
     = true.
Proof.
  split; [reflexivity|]. split; [reflexivity|].
  exact (proj1 (not_ok_always_reported App.maxFileSize later not_found small_file 404
                  (inr {| UploadForm.error_message := None |}) picked
                  eq_refl eq_refl)).
Defined.

Example not_found_message :
  UploadForm.error
    (App.form (App.step App.maxFileSize (App.Submit not_found later) picked))
  = "Errore HTTP 404".
Proof. reflexivity. Qed.



